(** * Markov_Models: the fit / update / query lifecycle of the model classes

    Shallow embedding of [Markov_Models/base.py] (class [BaseModel]) and of
    [Markov_Models/msm/base.py] (classes [BaseMicroMSM] and [BaseMacroMSM]).

    The Python objects are records of attributes; an attribute that an
    instance acquires only inside [fit] is an [option] field ([None] = the
    attribute does not exist yet, so that reading it raises
    [AttributeError]).  The three objects of one model hierarchy live in a
    single store, because they alias each other: [micro._base] and
    [macro._base] are the same [BaseModel] instance and [macro._micro] is the
    micro model.  Methods are computations in a state-and-exception monad
    over that store; an exception carries the store as it was when the
    exception was raised, since Python does not roll attribute writes back.

    The numerical routines of the packages [analysis], [classifier],
    [cluster] and [score] are called but not defined by the two modules; they
    are the fields of the class [Collaborators], and every theorem holds for
    all of them. *)

From Stdlib Require Import String Ascii ZArith Bool Lia QArith Qminmax List.
Import ListNotations.

Set Implicit Arguments.
Local Open Scope string_scope.

(** ** Python values, exceptions, keyword arguments *)

(** The exception classes that occur.  Every error that the two modules
    raise themselves is an [AttributeError], and so is the error of reading
    an attribute that does not exist; [ValueError] and [IndexError] come from
    numpy and from list indexing; [OtherError] stands for whatever else a
    collaborator may raise. *)
Inductive exn : Type :=
| AttributeError
| ValueError
| IndexError
| TypeError
| OtherError (name : string).

(** Result of a computation that touches no object: a value or an exception. *)
Inductive res (A : Type) : Type :=
| Val (a : A)
| Exc (e : exn).
Arguments Val {A} a.
Arguments Exc {A} e.

Definition res_bind {A B} (r : res A) (k : A -> res B) : res B :=
  match r with
  | Val a => k a
  | Exc e => Exc e
  end.

(** The scalar Python values that travel through keyword arguments and
    through the configuration attributes.  A finite float is a rational
    number. *)
Inductive pyval : Type :=
| PyNone
| PyBool (b : bool)
| PyInt (z : Z)
| PyFloat (q : Q)
| PyStr (s : string).

(** [v is None] *)
Definition is_None (v : pyval) : bool :=
  match v with
  | PyNone => true
  | _ => false
  end.

(** [v is True]: identity with the singleton [True], which [1] or a non-empty
    string are not. *)
Definition is_True (v : pyval) : bool :=
  match v with
  | PyBool true => true
  | _ => false
  end.

(** Truth value of [v] in [if v:] and [not v]. *)
Definition truthy (v : pyval) : bool :=
  match v with
  | PyNone => false
  | PyBool b => b
  | PyInt z => negb (z =? 0)%Z
  | PyFloat q => negb (Qeq_bool q 0)
  | PyStr s => negb (s =? "")
  end.

(** [**kwargs]: a dict with string keys, in insertion order; a call site
    cannot repeat a keyword, so keys are pairwise distinct. *)
Definition kwargs : Type := list (string * pyval).

Fixpoint kwargs_lookup (kw : kwargs) (key : string) : option pyval :=
  match kw with
  | [] => None
  | (k, v) :: rest => if k =? key then Some v else kwargs_lookup rest key
  end.

(** [kwargs.get(key, default)] *)
Definition kwargs_get (kw : kwargs) (key : string) (default : pyval) : pyval :=
  match kwargs_lookup kw key with
  | Some v => v
  | None => default
  end.

Definition has_key (kw : kwargs) (key : string) : bool :=
  existsb (fun kv => fst kv =? key) kw.

(** [str.lower] on the code points 0..255 that [ascii] holds: the letters
    A..Z and the upper-case letters of Latin-1 (U+00C0..U+00DE without the
    multiplication sign U+00D7) move up by 32, everything else is fixed. *)
Definition lower_char (c : ascii) : ascii :=
  let n := N_of_ascii c in
  if (((65 <=? n) && (n <=? 90)) ||
      ((192 <=? n) && (n <=? 222) && negb (n =? 215)))%N
  then ascii_of_N (n + 32)
  else c.

Fixpoint lower (s : string) : string :=
  match s with
  | EmptyString => EmptyString
  | String c rest => String (lower_char c) (lower rest)
  end.

(** [v.lower()] for the values of [pyval]: of these only [str] has the
    method.  The byte strings of Python, which have a [lower] of their own,
    are not values of the type. *)
Definition py_lower (v : pyval) : res string :=
  match v with
  | PyStr s => Val (lower s)
  | _ => Exc AttributeError
  end.

(** ** The part of numpy that [BaseModel.__init__] uses *)

Module np.

(** A two-dimensional array of shape [(length rows, ncols)].  The width is
    stored, so that an array without rows still has one.  An element is the
    rational that a finite floating-point number denotes; the element type
    of the array, its conversions and NaN are not represented. *)
Record ndarray : Type := mk_ndarray {
  ncols : nat;
  rows : list (list Q)
}.

Definition wf (a : ndarray) : Prop :=
  Forall (fun r => length r = ncols a) (rows a).

Definition wfb (a : ndarray) : bool :=
  forallb (fun r => Nat.eqb (length r) (ncols a)) (rows a).

(** [a.shape[0]] and [a.shape[1]] *)
Definition shape0 (a : ndarray) : nat := length (rows a).
Definition shape1 (a : ndarray) : nat := ncols a.

(** [np.concatenate(arrays)] along axis 0: [ValueError] for an empty list
    ("need at least one array to concatenate") and for arrays whose widths
    differ ("all the input array dimensions except for the concatenation
    axis must match exactly"). *)
Definition concatenate (arrays : list ndarray) : res ndarray :=
  match arrays with
  | [] => Exc ValueError
  | a :: _ =>
      if forallb (fun b => Nat.eqb (ncols b) (ncols a)) arrays
      then Val (mk_ndarray (ncols a) (flat_map rows arrays))
      else Exc ValueError
  end.

Fixpoint zip_with (f : Q -> Q -> Q) (u v : list Q) : list Q :=
  match u, v with
  | x :: u', y :: v' => f x y :: zip_with f u' v'
  | _, _ => []
  end.

(** Reduction along axis 0 by an operation without identity: [ValueError]
    on an array without rows ("zero-size array to reduction operation"). *)
Definition reduce0 (f : Q -> Q -> Q) (a : ndarray) : res (list Q) :=
  match rows a with
  | [] => Exc ValueError
  | r :: rest => Val (fold_left (zip_with f) rest r)
  end.

(** [a.min(0)] and [a.max(0)] *)
Definition min0 : ndarray -> res (list Q) := reduce0 Qmin.
Definition max0 : ndarray -> res (list Q) := reduce0 Qmax.

Fixpoint interleave (u v : list Q) : list Q :=
  match u, v with
  | x :: u', y :: v' => x :: y :: interleave u' v'
  | _, _ => []
  end.

(** [np.column_stack([u, v]).reshape(-1)] for two vectors: the pairs
    [(u[j], v[j])] laid out one after the other; [ValueError] when the
    lengths differ. *)
Definition column_stack_flat (u v : list Q) : res (list Q) :=
  if Nat.eqb (length u) (length v)
  then Val (interleave u v)
  else Exc ValueError.

(** [np.all(np.equal(l, x))] for a list of integers *)
Definition all_equal (l : list nat) (x : nat) : bool :=
  forallb (fun y => Nat.eqb y x) l.

End np.

(** One integer state label per sample. *)
Definition Labels : Type := list Z.

Declare Scope res_scope.
Delimit Scope res_scope with res.
Notation "x <- c ;; k" := (res_bind c (fun x => k))
  (at level 61, c at next level, right associativity) : res_scope.

(** ** The objects *)

(** Attributes of a [BaseModel] instance.  [n_microstates] and
    [n_macrostates] are not set by the constructor: the [fit] methods of the
    two model classes create them. *)
Record BaseModelObj : Type := mk_BaseModel {
  base_is_force_db : pyval;
  base_is_reversible : pyval;
  base_is_sparse : pyval;
  base_lag : pyval;
  base_data : list np.ndarray;
  base_n_sets : nat;
  base_n_samples : list nat;
  base_extent : list Q;
  base_n_features : nat;
  base_n_microstates : option Z;
  base_n_macrostates : option Z
}.

(** Attributes of a [BaseMicroMSM] instance; [_base] is the store's
    [BaseModel]. *)
Record MicroObj : Type := mk_Micro {
  micro_is_force_db : pyval;
  micro_is_reversible : pyval;
  micro_is_sparse : pyval;
  micro_lag : pyval;
  micro_centroids : option np.ndarray;
  micro_N : option Z;
  micro_labels : option Labels;
  micro_C : option np.ndarray;
  micro_T : option np.ndarray
}.

(** Attributes of a [BaseMacroMSM] instance; [_base] and [_micro] are the
    store's [BaseModel] and micro model.  [labels] and [metastable_labels]
    are written by the coarse-graining routines only. *)
Record MacroObj : Type := mk_Macro {
  macro_is_force_db : pyval;
  macro_is_reversible : pyval;
  macro_is_sparse : pyval;
  macro_lag : pyval;
  macro_N : option Z;
  macro_labels : option Labels;
  macro_metastable_labels : option Labels;
  macro_C : option np.ndarray;
  macro_T : option np.ndarray
}.

(** The store: the three objects of one hierarchy and the warnings issued
    through [warnings.warn], oldest first. *)
Record World : Type := mk_World {
  base : BaseModelObj;
  micro : MicroObj;
  macro : MacroObj;
  warnings : list string
}.

(** *** Attribute assignment *)

Definition base_set_n_microstates (n : Z) (b : BaseModelObj) : BaseModelObj :=
  mk_BaseModel (base_is_force_db b) (base_is_reversible b) (base_is_sparse b)
    (base_lag b) (base_data b) (base_n_sets b) (base_n_samples b)
    (base_extent b) (base_n_features b) (Some n) (base_n_macrostates b).

Definition base_set_n_macrostates (n : Z) (b : BaseModelObj) : BaseModelObj :=
  mk_BaseModel (base_is_force_db b) (base_is_reversible b) (base_is_sparse b)
    (base_lag b) (base_data b) (base_n_sets b) (base_n_samples b)
    (base_extent b) (base_n_features b) (base_n_microstates b) (Some n).

Definition micro_set_lag (v : pyval) (m : MicroObj) : MicroObj :=
  mk_Micro (micro_is_force_db m) (micro_is_reversible m) (micro_is_sparse m)
    v (micro_centroids m) (micro_N m) (micro_labels m) (micro_C m) (micro_T m).

Definition micro_set_centroids (c : np.ndarray) (m : MicroObj) : MicroObj :=
  mk_Micro (micro_is_force_db m) (micro_is_reversible m) (micro_is_sparse m)
    (micro_lag m) (Some c) (micro_N m) (micro_labels m) (micro_C m) (micro_T m).

Definition micro_set_N (n : Z) (m : MicroObj) : MicroObj :=
  mk_Micro (micro_is_force_db m) (micro_is_reversible m) (micro_is_sparse m)
    (micro_lag m) (micro_centroids m) (Some n) (micro_labels m) (micro_C m)
    (micro_T m).

Definition micro_set_labels (l : Labels) (m : MicroObj) : MicroObj :=
  mk_Micro (micro_is_force_db m) (micro_is_reversible m) (micro_is_sparse m)
    (micro_lag m) (micro_centroids m) (micro_N m) (Some l) (micro_C m)
    (micro_T m).

Definition micro_set_C (c : np.ndarray) (m : MicroObj) : MicroObj :=
  mk_Micro (micro_is_force_db m) (micro_is_reversible m) (micro_is_sparse m)
    (micro_lag m) (micro_centroids m) (micro_N m) (micro_labels m) (Some c)
    (micro_T m).

Definition micro_set_T (t : np.ndarray) (m : MicroObj) : MicroObj :=
  mk_Micro (micro_is_force_db m) (micro_is_reversible m) (micro_is_sparse m)
    (micro_lag m) (micro_centroids m) (micro_N m) (micro_labels m) (micro_C m)
    (Some t).

Definition macro_set_is_sparse (v : pyval) (m : MacroObj) : MacroObj :=
  mk_Macro (macro_is_force_db m) (macro_is_reversible m) v (macro_lag m)
    (macro_N m) (macro_labels m) (macro_metastable_labels m) (macro_C m)
    (macro_T m).

Definition macro_set_lag (v : pyval) (m : MacroObj) : MacroObj :=
  mk_Macro (macro_is_force_db m) (macro_is_reversible m) (macro_is_sparse m) v
    (macro_N m) (macro_labels m) (macro_metastable_labels m) (macro_C m)
    (macro_T m).

Definition macro_set_N (n : Z) (m : MacroObj) : MacroObj :=
  mk_Macro (macro_is_force_db m) (macro_is_reversible m) (macro_is_sparse m)
    (macro_lag m) (Some n) (macro_labels m) (macro_metastable_labels m)
    (macro_C m) (macro_T m).

Definition macro_set_C (c : np.ndarray) (m : MacroObj) : MacroObj :=
  mk_Macro (macro_is_force_db m) (macro_is_reversible m) (macro_is_sparse m)
    (macro_lag m) (macro_N m) (macro_labels m) (macro_metastable_labels m)
    (Some c) (macro_T m).

Definition macro_set_T (t : np.ndarray) (m : MacroObj) : MacroObj :=
  mk_Macro (macro_is_force_db m) (macro_is_reversible m) (macro_is_sparse m)
    (macro_lag m) (macro_N m) (macro_labels m) (macro_metastable_labels m)
    (macro_C m) (Some t).

Definition on_base (f : BaseModelObj -> BaseModelObj) (w : World) : World :=
  mk_World (f (base w)) (micro w) (macro w) (warnings w).

Definition on_micro (f : MicroObj -> MicroObj) (w : World) : World :=
  mk_World (base w) (f (micro w)) (macro w) (warnings w).

Definition on_macro (f : MacroObj -> MacroObj) (w : World) : World :=
  mk_World (base w) (micro w) (f (macro w)) (warnings w).

Definition add_warning (msg : string) (w : World) : World :=
  mk_World (base w) (micro w) (macro w) (warnings w ++ [msg]).

(** ** Methods as computations on the store *)

(** How a call ends: with a value or with an exception, and in both cases
    with the store as the call left it. *)
Inductive outcome (A : Type) : Type :=
| Ok (a : A) (w : World)
| Raise (e : exn) (w : World).
Arguments Ok {A} a w.
Arguments Raise {A} e w.

Definition M (A : Type) : Type := World -> outcome A.

Definition ret {A} (a : A) : M A := fun w => Ok a w.

Definition bind {A B} (c : M A) (k : A -> M B) : M B :=
  fun w =>
    match c w with
    | Ok a w' => k a w'
    | Raise e w' => Raise e w'
    end.

(** [raise e] *)
Definition raise {A} (e : exn) : M A := fun w => Raise e w.

(** Read something off the store. *)
Definition gets {A} (f : World -> A) : M A := fun w => Ok (f w) w.

(** Assign attributes. *)
Definition modify (f : World -> World) : M unit := fun w => Ok tt (f w).

(** Read an attribute that may not exist. *)
Definition getattr {A} (f : World -> option A) : M A :=
  fun w =>
    match f w with
    | Some a => Ok a w
    | None => Raise AttributeError w
    end.

(** Run a computation that touches no object. *)
Definition lift {A} (r : res A) : M A :=
  fun w =>
    match r with
    | Val a => Ok a w
    | Exc e => Raise e w
    end.

(** [warnings.warn(msg)] *)
Definition warn (msg : string) : M unit := modify (add_warning msg).

(** The store in which a call ends. *)
Definition final {A} (o : outcome A) : World :=
  match o with
  | Ok _ w => w
  | Raise _ w => w
  end.

(** The exception with which a call ends, if any. *)
Definition raised {A} (o : outcome A) : option exn :=
  match o with
  | Ok _ _ => None
  | Raise e _ => Some e
  end.

Declare Scope py_scope.
Delimit Scope py_scope with py.
Notation "x <- c ;; k" := (bind c (fun x => k))
  (at level 61, c at next level, right associativity) : py_scope.
Notation "c ;; k" := (bind c (fun _ => k))
  (at level 61, right associativity) : py_scope.

(** ** The collaborators *)

(** Which object a routine receives as [self]. *)
Inductive self_ref : Type :=
| SelfMicro
| SelfMacro.

(** The routines of [classifier], [cluster], [score] and [analysis].  A
    routine that receives the model object may read and write the store;
    one that receives arrays and flags only computes a result. *)
Class Collaborators : Type := {
  (** [_classifier._KNeighborsClassifier(self, data=..., labels=..., **kwargs)] *)
  classifier_KNeighborsClassifier :
    self_ref -> option np.ndarray -> option Labels -> kwargs -> M Labels;
  classifier_GaussianNB :
    self_ref -> option np.ndarray -> option Labels -> kwargs -> M Labels;
  (** [_cluster._KMeans(self, **kwargs)], with [self] the micro model *)
  cluster_KMeans : kwargs -> M (np.ndarray * Labels);
  cluster_MiniBatchKMeans : kwargs -> M (np.ndarray * Labels);
  cluster_KMedoids : kwargs -> M (np.ndarray * Labels);
  (** [analysis.count_matrix(labels, lag=lag, sparse=sparse)] *)
  analysis_count_matrix : Labels -> pyval -> pyval -> res np.ndarray;
  (** [analysis.transition_matrix.*(C)] *)
  sym_T_estimator : np.ndarray -> res np.ndarray;
  rev_T_estimator : np.ndarray -> res np.ndarray;
  nonrev_T_matrix : np.ndarray -> res np.ndarray;
  (** [analysis.coarse_grain.*(self, n_macrostates)], with [self] the macro
      model; [PCCA] also receives [lag] *)
  coarse_grain_GMM : Z -> M unit;
  coarse_grain_HC : Z -> M unit;
  coarse_grain_HMM : Z -> M unit;
  coarse_grain_HPCA : Z -> M unit;
  coarse_grain_PCCA : Z -> pyval -> M unit;
  (** [analysis.spectral.stationary_distribution(T, sparse=...)] *)
  spectral_stationary_distribution : np.ndarray -> pyval -> res (list Q);
  (** [analysis.spectral.eigen_values(T, k=, ncv=, sparse=, rev=)] *)
  spectral_eigen_values :
    np.ndarray -> pyval -> pyval -> pyval -> pyval -> res (list Q);
  (** [analysis.timescales.mfpt(T, origin, target, sparse=...)] *)
  timescales_mfpt : np.ndarray -> Z -> Z -> pyval -> res Q;
  (** [_score.Silhouette_Score(X, y, **kwargs)] *)
  score_Silhouette_Score : np.ndarray -> option Labels -> kwargs -> res Q
}.

(** ** [class BaseModel] *)

Module BaseModel.

(** [BaseModel.__init__(self, data, **kwargs)]; the value is the instance
    built, and an exception means that no instance exists. *)
Definition __init__ (data : list np.ndarray) (kw : kwargs)
  : res BaseModelObj :=
  let is_force_db := kwargs_get kw "db" (PyBool false) in
  let is_reversible := kwargs_get kw "rev" (PyBool true) in
  let is_sparse := kwargs_get kw "sparse" (PyBool false) in
  let lag := kwargs_get kw "lag" (PyInt 1) in
  let n_sets := length data in
  let n_samples := map np.shape0 data in
  let n_features := map np.shape1 data in
  (data_cat <- np.concatenate data ;;
   lo <- np.min0 data_cat ;;
   hi <- np.max0 data_cat ;;
   extent <- np.column_stack_flat lo hi ;;
   match n_features with
   | [] => Exc IndexError
   | first :: _ =>
       if np.all_equal n_features first
       then Val (mk_BaseModel is_force_db is_reversible is_sparse lag data
                   n_sets n_samples extent first None None)
       else Exc AttributeError
   end)%res.

End BaseModel.

(** ** [_check_data_structure], the module-level function of [base.py] *)

(** A numpy array of any number of dimensions: its shape and its elements
    in row-major order. *)
Record narray : Type := mk_narray {
  shape : list nat;
  flat : list Q
}.

(** The Python objects that [_check_data_structure] tells apart: a [list]
    (of arrays), an [ndarray], [None], and anything else. *)
Inductive pyobject : Type :=
| ObjList (items : list narray)
| ObjArray (a : narray)
| ObjNone
| ObjOther.

(** [_check_data_structure(data)].  The tests [len(data.shape) == 1] and
    [len(data.shape) == 2] are the first two patterns; the third test is
    [len(data) == 3], the length of the first axis, which is a [TypeError]
    on an array without axes; an object that is neither a list nor an array
    falls off the end of the function, whose value is then [None]. *)
Definition _check_data_structure (data : pyobject) : res pyobject :=
  match data with
  | ObjList _ => Val data
  | ObjArray a =>
      match shape a with
      | [n] => Val (ObjList [mk_narray [n; 1%nat] (flat a)])
      | [_; _] => Val (ObjList [a])
      | [] => Exc TypeError
      | n :: _ => if Nat.eqb n 3 then Val data else Exc AttributeError
      end
  | _ => Val ObjNone
  end.

(** ** [class BaseMicroMSM] *)

Module BaseMicroMSM.
Section Methods.

Context {col : Collaborators}.
Local Open Scope py_scope.

(** [BaseMicroMSM.__init__(self, BaseModel)] *)
Definition __init__ (b : BaseModelObj) : MicroObj :=
  mk_Micro (base_is_force_db b) (base_is_reversible b) (base_is_sparse b)
    (base_lag b) None None None None None.

(** [fit], lines 20-47: validation of the arguments and labelling.  The
    locals [tol], [max_iter], [fraction] and [shuffle] of the clustering
    branch are read from [kwargs] with a default and never used, so they
    leave no trace here. *)
Definition fit_label (N : option Z) (centroids : option np.ndarray)
    (kw : kwargs) : M unit :=
  match N with
  | None =>
      match centroids with
      | None => raise AttributeError
      | Some c =>
          let method := kwargs_get kw "method" (PyStr "KNeighborsClassifier") in
          modify (on_micro (micro_set_centroids c)) ;;
          modify (on_micro (micro_set_N (Z.of_nat (np.shape0 c)))) ;;
          modify (on_base (base_set_n_microstates (Z.of_nat (np.shape0 c)))) ;;
          m <- lift (py_lower method) ;;
          (if m =? "kneighborsclassifier"
           then l <- classifier_KNeighborsClassifier SelfMicro None None kw ;;
                modify (on_micro (micro_set_labels l))
           else ret tt) ;;
          m <- lift (py_lower method) ;;
          (if m =? "gaussiannb"
           then l <- classifier_GaussianNB SelfMicro None None kw ;;
                modify (on_micro (micro_set_labels l))
           else ret tt)
      end
  | Some n =>
      let method := kwargs_get kw "method" (PyStr "KMeans") in
      modify (on_micro (micro_set_N n)) ;;
      modify (on_base (base_set_n_microstates n)) ;;
      m <- lift (py_lower method) ;;
      if m =? "kmeans"
      then cl <- cluster_KMeans kw ;;
           modify (on_micro (micro_set_centroids (fst cl))) ;;
           modify (on_micro (micro_set_labels (snd cl)))
      else
        m <- lift (py_lower method) ;;
        if m =? "minibatchkmeans"
        then cl <- cluster_MiniBatchKMeans kw ;;
             modify (on_micro (micro_set_centroids (fst cl))) ;;
             modify (on_micro (micro_set_labels (snd cl)))
        else
          m <- lift (py_lower method) ;;
          if m =? "kmedoids"
          then cl <- cluster_KMedoids kw ;;
               modify (on_micro (micro_set_centroids (fst cl))) ;;
               modify (on_micro (micro_set_labels (snd cl)))
          else ret tt
  end.

(** [fit], lines 49-53: the lag in force, stored when it was passed. *)
Definition fit_lag (lag : pyval) : M pyval :=
  if is_None lag
  then gets (fun w => micro_lag (micro w))
  else modify (on_micro (micro_set_lag lag)) ;; ret lag.

(** [fit], lines 55-63: count matrix and transition matrix. *)
Definition fit_estimate (lag : pyval) : M unit :=
  labels <- getattr (fun w => micro_labels (micro w)) ;;
  sparse <- gets (fun w => micro_is_sparse (micro w)) ;;
  C <- lift (analysis_count_matrix labels lag sparse) ;;
  modify (on_micro (micro_set_C C)) ;;
  rev <- gets (fun w => micro_is_reversible (micro w)) ;;
  if is_True rev
  then
    db <- gets (fun w => micro_is_force_db (micro w)) ;;
    if is_True db
    then C <- getattr (fun w => micro_C (micro w)) ;;
         T <- lift (sym_T_estimator C) ;;
         modify (on_micro (micro_set_T T))
    else C <- getattr (fun w => micro_C (micro w)) ;;
         T <- lift (rev_T_estimator C) ;;
         modify (on_micro (micro_set_T T))
  else C <- getattr (fun w => micro_C (micro w)) ;;
       T <- lift (nonrev_T_matrix C) ;;
       modify (on_micro (micro_set_T T)).

(** [fit(self, N=None, centroids=None, lag=None, **kwargs)] *)
Definition fit (N : option Z) (centroids : option np.ndarray) (lag : pyval)
    (kw : kwargs) : M unit :=
  fit_label N centroids kw ;;
  lag <- fit_lag lag ;;
  fit_estimate lag.

(** [predict(self, data, method='KNeighborsClassifier', **kwargs)]; the
    value [None] is Python's [None], returned when no [if] fires. *)
Definition predict (data : np.ndarray) (method : string) (kw : kwargs)
  : M (option Labels) :=
  c <- gets (fun w => micro_centroids (micro w)) ;;
  match c with
  | None => raise AttributeError
  | Some _ =>
      if lower method =? "kneighborsclassifier"
      then l <- classifier_KNeighborsClassifier SelfMicro (Some data) None kw ;;
           ret (Some l)
      else if lower method =? "gaussiannb"
      then l <- classifier_GaussianNB SelfMicro (Some data) None kw ;;
           ret (Some l)
      else ret None
  end.

(** [_count_matrix(self, lag=1)] *)
Definition _count_matrix (lag : pyval) : M np.ndarray :=
  labels <- getattr (fun w => micro_labels (micro w)) ;;
  sparse <- gets (fun w => micro_is_sparse (micro w)) ;;
  lift (analysis_count_matrix labels lag sparse).

(** [_transition_matrix(self, lag=None)] *)
Definition _transition_matrix (lag : pyval) : M np.ndarray :=
  C <- (if negb (is_None lag)
        then _count_matrix lag
        else getattr (fun w => micro_C (micro w))) ;;
  rev <- gets (fun w => micro_is_reversible (micro w)) ;;
  if is_True rev
  then
    db <- gets (fun w => micro_is_force_db (micro w)) ;;
    if is_True db
    then lift (sym_T_estimator C)
    else lift (rev_T_estimator C)
  else lift (nonrev_T_matrix C).

(** Property [count_matrix]: [try: return self._C], and any failure
    becomes an [AttributeError]. *)
Definition count_matrix : M np.ndarray :=
  fun w =>
    match getattr (fun w => micro_C (micro w)) w with
    | Ok C w' => Ok C w'
    | Raise _ w' => Raise AttributeError w'
    end.

(** Property [transition_matrix] *)
Definition transition_matrix : M np.ndarray :=
  fun w =>
    match getattr (fun w => micro_T (micro w)) w with
    | Ok T w' => Ok T w'
    | Raise _ w' => Raise AttributeError w'
    end.

(** Property [stationary_distribution] *)
Definition stationary_distribution : M (list Q) :=
  T <- getattr (fun w => micro_T (micro w)) ;;
  sparse <- gets (fun w => micro_is_sparse (micro w)) ;;
  lift (spectral_stationary_distribution T sparse).

(** [eigenvalues(self, k=None, ncv=None)] *)
Definition eigenvalues (k ncv : pyval) : M (list Q) :=
  T <- getattr (fun w => micro_T (micro w)) ;;
  sparse <- gets (fun w => micro_is_sparse (micro w)) ;;
  rev <- gets (fun w => micro_is_reversible (micro w)) ;;
  lift (spectral_eigen_values T k ncv sparse rev).

(** [mfpt(self, origin, target)] *)
Definition mfpt (origin target : Z) : M Q :=
  T <- getattr (fun w => micro_T (micro w)) ;;
  sparse <- gets (fun w => micro_is_sparse (micro w)) ;;
  lift (timescales_mfpt T origin target sparse).

(** [score(self, X, y=None, **kwargs)] *)
Definition score (X : np.ndarray) (y : option Labels) (kw : kwargs) : M Q :=
  y <- match y with
       | None => predict X "KNeighborsClassifier" []
       | Some l => ret (Some l)
       end ;;
  lift (score_Silhouette_Score X y kw).

(** Body of the loop of [update] for one item of [kwargs]. *)
Definition update_item (key : string) (val : pyval) : M unit :=
  if key =? "lag"
  then modify (on_micro (micro_set_lag val)) ;;
       C <- _count_matrix val ;;
       modify (on_micro (micro_set_C C)) ;;
       T <- _transition_matrix val ;;
       modify (on_micro (micro_set_T T))
  else ret tt.

(** [update(self, **kwargs)]: [for key, val in kwargs.items()] *)
Fixpoint update (kw : kwargs) : M unit :=
  match kw with
  | [] => ret tt
  | (key, val) :: rest => update_item key val ;; update rest
  end.

End Methods.
End BaseMicroMSM.

(** ** [class BaseMacroMSM] *)

Module BaseMacroMSM.
Section Methods.

Context {col : Collaborators}.
Local Open Scope py_scope.

(** [BaseMacroMSM.__init__(self, BaseModel)]; [mi] is
    [BaseModel.microstates]. *)
Definition __init__ (b : BaseModelObj) (mi : MicroObj) : MacroObj :=
  mk_Macro (base_is_force_db b) (base_is_reversible b) (PyBool false)
    (micro_lag mi) None None None None None.

Definition sparse_advice : string :=
  "Sparse methods are highly recommended for microstates >= 4000! self.update(sparse=True)".

(** [fit], lines 169-172: the lag in force, stored when it was passed. *)
Definition fit_lag (lag : pyval) : M pyval :=
  if is_None lag
  then gets (fun w => macro_lag (macro w))
  else modify (on_macro (macro_set_lag lag)) ;; ret lag.

(** [fit], lines 174-188: the bound on the number of macrostates and the
    sparse policy. *)
Definition fit_validate : M unit :=
  N <- getattr (fun w => macro_N (macro w)) ;;
  microN <- getattr (fun w => micro_N (micro w)) ;;
  (if (N >? microN - 1)%Z then raise AttributeError else ret tt) ;;
  N <- getattr (fun w => macro_N (macro w)) ;;
  if (N >=? 4000)%Z
  then
    sp <- gets (fun w => base_is_sparse (base w)) ;;
    modify (on_macro (macro_set_is_sparse sp)) ;;
    sp <- gets (fun w => macro_is_sparse (macro w)) ;;
    if negb (truthy sp) then warn sparse_advice else ret tt
  else
    N <- getattr (fun w => macro_N (macro w)) ;;
    if (N <? 4)%Z
    then
      sp <- gets (fun w => macro_is_sparse (macro w)) ;;
      if truthy sp then raise AttributeError else ret tt
    else ret tt.

(** [fit], lines 190-201: the coarse-graining routine named by [method]. *)
Definition fit_coarse_grain (n_macrostates : Z) (lag : pyval)
    (method : string) : M unit :=
  if lower method =? "gmm" then coarse_grain_GMM n_macrostates
  else if lower method =? "hc" then coarse_grain_HC n_macrostates
  else if lower method =? "hmm" then coarse_grain_HMM n_macrostates
  else if lower method =? "hpca" then coarse_grain_HPCA n_macrostates
  else if lower method =? "pcca" then coarse_grain_PCCA n_macrostates lag
  else raise AttributeError.

(** The test of line 204: [not method.lower() == 'pcca' or not
    method.lower() == 'hpca']. *)
Definition reestimate_guard (method : string) : bool :=
  negb (lower method =? "pcca") || negb (lower method =? "hpca").

(** [fit], lines 203-211: count matrix and transition matrix. *)
Definition fit_estimate (lag : pyval) (method : string) : M unit :=
  labels <- getattr (fun w => macro_labels (macro w)) ;;
  sparse <- gets (fun w => macro_is_sparse (macro w)) ;;
  C <- lift (analysis_count_matrix labels lag sparse) ;;
  modify (on_macro (macro_set_C C)) ;;
  if reestimate_guard method
  then
    rev <- gets (fun w => macro_is_reversible (macro w)) ;;
    if is_True rev
    then
      db <- gets (fun w => macro_is_force_db (macro w)) ;;
      if is_True db
      then C <- getattr (fun w => macro_C (macro w)) ;;
           T <- lift (sym_T_estimator C) ;;
           modify (on_macro (macro_set_T T))
      else C <- getattr (fun w => macro_C (macro w)) ;;
           T <- lift (rev_T_estimator C) ;;
           modify (on_macro (macro_set_T T))
    else C <- getattr (fun w => macro_C (macro w)) ;;
         T <- lift (nonrev_T_matrix C) ;;
         modify (on_macro (macro_set_T T))
  else ret tt.

(** [fit(self, n_macrostates, lag=None, method='PCCA')] *)
Definition fit (n_macrostates : Z) (lag : pyval) (method : string)
  : M unit :=
  modify (on_macro (macro_set_N n_macrostates)) ;;
  modify (on_base (base_set_n_macrostates n_macrostates)) ;;
  lag <- fit_lag lag ;;
  fit_validate ;;
  fit_coarse_grain n_macrostates lag method ;;
  fit_estimate lag method.

(** [predict(self, data, method='KNeighborsClassifier', **kwargs)].  The
    call [f(self, data=data, labels=..., **kwargs)] is a [TypeError] when
    [kwargs] brings a second [labels]. *)
Definition predict (data : np.ndarray) (method : string) (kw : kwargs)
  : M (option Labels) :=
  c <- gets (fun w => micro_centroids (micro w)) ;;
  match c with
  | None => raise AttributeError
  | Some _ =>
      if lower method =? "kneighborsclassifier"
      then ml <- getattr (fun w => macro_metastable_labels (macro w)) ;;
           (if has_key kw "labels" then raise TypeError else ret tt) ;;
           l <- classifier_KNeighborsClassifier SelfMacro (Some data) (Some ml) kw ;;
           ret (Some l)
      else if lower method =? "gaussiannb"
      then ml <- getattr (fun w => macro_metastable_labels (macro w)) ;;
           (if has_key kw "labels" then raise TypeError else ret tt) ;;
           l <- classifier_GaussianNB SelfMacro (Some data) (Some ml) kw ;;
           ret (Some l)
      else ret None
  end.

(** [_count_matrix(self, lag=None)] *)
Definition _count_matrix (lag : pyval) : M np.ndarray :=
  lag <- (if is_None lag then gets (fun w => macro_lag (macro w)) else ret lag) ;;
  labels <- getattr (fun w => macro_labels (macro w)) ;;
  sparse <- gets (fun w => macro_is_sparse (macro w)) ;;
  lift (analysis_count_matrix labels lag sparse).

(** [_transition_matrix(self, lag=None)] *)
Definition _transition_matrix (lag : pyval) : M np.ndarray :=
  C <- (if negb (is_None lag)
        then _count_matrix lag
        else getattr (fun w => macro_C (macro w))) ;;
  rev <- gets (fun w => macro_is_reversible (macro w)) ;;
  if is_True rev
  then
    db <- gets (fun w => macro_is_force_db (macro w)) ;;
    if is_True db
    then lift (sym_T_estimator C)
    else lift (rev_T_estimator C)
  else lift (nonrev_T_matrix C).

(** Property [count_matrix] *)
Definition count_matrix : M np.ndarray :=
  fun w =>
    match getattr (fun w => macro_C (macro w)) w with
    | Ok C w' => Ok C w'
    | Raise _ w' => Raise AttributeError w'
    end.

(** Property [transition_matrix] *)
Definition transition_matrix : M np.ndarray :=
  fun w =>
    match getattr (fun w => macro_T (macro w)) w with
    | Ok T w' => Ok T w'
    | Raise _ w' => Raise AttributeError w'
    end.

(** Property [stationary_distribution] *)
Definition stationary_distribution : M (list Q) :=
  T <- getattr (fun w => macro_T (macro w)) ;;
  sparse <- gets (fun w => macro_is_sparse (macro w)) ;;
  lift (spectral_stationary_distribution T sparse).

(** [eigenvalues(self, k=None, ncv=None)] *)
Definition eigenvalues (k ncv : pyval) : M (list Q) :=
  T <- getattr (fun w => macro_T (macro w)) ;;
  sparse <- gets (fun w => macro_is_sparse (macro w)) ;;
  rev <- gets (fun w => macro_is_reversible (macro w)) ;;
  lift (spectral_eigen_values T k ncv sparse rev).

(** [mfpt(self, origin, target)] *)
Definition mfpt (origin target : Z) : M Q :=
  T <- getattr (fun w => macro_T (macro w)) ;;
  sparse <- gets (fun w => macro_is_sparse (macro w)) ;;
  lift (timescales_mfpt T origin target sparse).

(** [score(self, **kwargs)] *)
Definition score (kw : kwargs) : M Q :=
  c <- getattr (fun w => micro_centroids (micro w)) ;;
  ml <- getattr (fun w => macro_metastable_labels (macro w)) ;;
  lift (score_Silhouette_Score c (Some ml) kw).

End Methods.
End BaseMacroMSM.

(** ** Vocabulary of the statements *)

(** The estimator that the two flags select, as all four copies of the
    nested [if] in the source compute it. *)
Definition selected_estimator {col : Collaborators} (rev db : pyval)
    (C : np.ndarray) : res np.ndarray :=
  if is_True rev
  then if is_True db then sym_T_estimator C else rev_T_estimator C
  else nonrev_T_matrix C.

(** The micro model after lines 49-53 of its [fit]: the lag is stored when
    one was passed. *)
Definition micro_with_lag (lag : pyval) (w : World) : World :=
  if is_None lag then w else on_micro (micro_set_lag lag) w.

(** The macro model after lines 166-172 of its [fit]: the number of
    macrostates is stored on the model and on the [BaseModel], and the lag
    when one was passed. *)
Definition macro_after_assignments (n : Z) (lag : pyval) (w : World) : World :=
  let w1 := on_base (base_set_n_macrostates n) (on_macro (macro_set_N n) w) in
  if is_None lag then w1 else on_macro (macro_set_lag lag) w1.

(** The micro model after the first assignments of the two branches of
    [fit]: lines 28-29 and line 41. *)
Definition micro_after_centroids (c : np.ndarray) (w : World) : World :=
  on_base (base_set_n_microstates (Z.of_nat (np.shape0 c)))
    (on_micro (micro_set_N (Z.of_nat (np.shape0 c)))
       (on_micro (micro_set_centroids c) w)).

Definition micro_after_N (n : Z) (w : World) : World :=
  on_base (base_set_n_microstates n) (on_micro (micro_set_N n) w).

(** Lines 43, 45 and 47: the pair that the clustering routine returns is
    assigned to [centroids] and [labels], in this order. *)
Definition micro_after_clustering (cl : np.ndarray * Labels) (w : World)
  : World :=
  on_micro (micro_set_labels (snd cl))
    (on_micro (micro_set_centroids (fst cl)) w).

(** The lag that a [fit] of the macro model works with: the argument, or
    the stored lag when the argument is [None]. *)
Definition macro_lag_in_force (lag : pyval) (w : World) : pyval :=
  if is_None lag then macro_lag (macro w) else lag.

(** The method names that line 190-199 of [BaseMacroMSM.fit] compare with. *)
Definition coarse_grain_methods : list string :=
  ["gmm"; "hc"; "hmm"; "hpca"; "pcca"].

(** The three policy flags of the micro model. *)
Definition micro_flags (w : World) : pyval * pyval * pyval :=
  (micro_is_force_db (micro w), micro_is_reversible (micro w),
   micro_is_sparse (micro w)).

(** A routine that, when it returns, has left the three flags of the micro
    model as it found them. *)
Definition keeps_micro_flags {A} (c : M A) : Prop :=
  forall w a w1, c w = Ok a w1 -> micro_flags w1 = micro_flags w.

(** The labelling routines of [classifier] and [cluster] do not assign the
    flags of the model they label. *)
Definition labellers_keep_flags {col : Collaborators} : Prop :=
  (forall s d l kw,
      keeps_micro_flags (classifier_KNeighborsClassifier s d l kw)) /\
  (forall s d l kw, keeps_micro_flags (classifier_GaussianNB s d l kw)) /\
  (forall kw, keeps_micro_flags (cluster_KMeans kw)) /\
  (forall kw, keeps_micro_flags (cluster_MiniBatchKMeans kw)) /\
  (forall kw, keeps_micro_flags (cluster_KMedoids kw)).

(** The rationals that are values of the type float64: [m * 2 ^ e] with a
    significand below [2 ^ 53] and an exponent in the double range.  On such
    values numpy's conversions between numeric types and its [min] and
    [max] are exact, which is what the rows of [np.ndarray] stand for. *)
Definition binary64 (q : Q) : Prop :=
  exists m e : Z,
    (Z.abs m < 2 ^ 53)%Z /\ (-1074 <= e <= 971)%Z /\
    (q == inject_Z m * 2 ^ e)%Q.

(** ** A concrete hierarchy

    Small, total collaborators and a few stores, on which the methods can be
    run.  Every routine leaves a distinct mark, so that a result shows which
    routine produced it. *)

Module Demo.

Definition scalar (z : Z) : np.ndarray :=
  np.mk_ndarray 1 [[inject_Z z]].

Definition lag_steps (lag : pyval) : Z :=
  match lag with
  | PyInt z => z
  | _ => 1
  end.

(** The number of pairs [(t, t + lag)] inside the label sequence. *)
Definition count (labels : Labels) (lag sparse : pyval) : res np.ndarray :=
  Val (scalar (Z.of_nat (length labels) - lag_steps lag)).

(** An estimator puts its tag in a new first row. *)
Definition tagged (tag : Z) (C : np.ndarray) : res np.ndarray :=
  Val (np.mk_ndarray (np.ncols C) ([inject_Z tag] :: np.rows C)).

Definition two_centroids : np.ndarray :=
  np.mk_ndarray 2 [[0; 0]; [1; 1]]%Q.

Definition macro_assign_labels (l : Labels) (m : MacroObj) : MacroObj :=
  mk_Macro (macro_is_force_db m) (macro_is_reversible m) (macro_is_sparse m)
    (macro_lag m) (macro_N m) (Some l) (Some l) (macro_C m) (macro_T m).

(** A coarse-graining routine that only labels. *)
Definition coarse (l : Labels) : M unit :=
  modify (on_macro (macro_assign_labels l)).

(** A coarse-graining routine that labels and stores a transition matrix
    of its own. *)
Definition coarse_with_T (l : Labels) (T : np.ndarray) : M unit :=
  modify (on_macro (fun m => macro_set_T T (macro_assign_labels l m))).

#[export] Instance collaborators : Collaborators := {|
  classifier_KNeighborsClassifier := fun _ _ _ _ => ret [0; 1; 0; 1]%Z;
  classifier_GaussianNB := fun _ _ _ _ => ret [1; 0; 1; 0]%Z;
  cluster_KMeans := fun _ => ret (two_centroids, [0; 0; 1; 1]%Z);
  cluster_MiniBatchKMeans := fun _ => ret (two_centroids, [0; 1; 1; 1]%Z);
  cluster_KMedoids := fun _ => ret (two_centroids, [0; 0; 0; 1]%Z);
  analysis_count_matrix := count;
  sym_T_estimator := tagged 1;
  rev_T_estimator := tagged 2;
  nonrev_T_matrix := tagged 3;
  coarse_grain_GMM := fun _ => coarse [0; 0; 1]%Z;
  coarse_grain_HC := fun _ => coarse [0; 1; 0]%Z;
  coarse_grain_HMM := fun _ => coarse [0; 1; 1]%Z;
  coarse_grain_HPCA := fun _ => coarse_with_T [1; 0; 0]%Z (scalar 98);
  coarse_grain_PCCA := fun _ _ => coarse_with_T [1; 0; 1]%Z (scalar 99);
  spectral_stationary_distribution := fun _ _ => Val [1%Q];
  spectral_eigen_values := fun _ _ _ _ _ => Val [1%Q];
  timescales_mfpt := fun _ _ _ _ => Val 0%Q;
  score_Silhouette_Score := fun _ _ _ => Val 0%Q
|}.

(** Two trajectories with two features each. *)
Definition data : list np.ndarray :=
  [np.mk_ndarray 2 [[0; 5]; [2; 3]]%Q; np.mk_ndarray 2 [[4; 1]]%Q].

(** The instance that [BaseModel(data, sparse=flag)] builds. *)
Definition base_model (sparse : bool) : BaseModelObj :=
  mk_BaseModel (PyBool false) (PyBool true) (PyBool sparse) (PyInt 1) data
    2 [2; 1]%nat [0; 4; 1; 5]%Q 2 None None.

(** A hierarchy on which nothing was fitted. *)
Definition unfit (sparse : bool) : World :=
  let b := base_model sparse in
  let mi := BaseMicroMSM.__init__ b in
  mk_World b mi (BaseMacroMSM.__init__ b mi) [].

(** The micro model fitted with [N] states, and a macro model constructed
    on it afterwards. *)
Definition micro_fitted (sparse : bool) (N : Z) : World :=
  let w := final (BaseMicroMSM.fit (Some N) None PyNone [] (unfit sparse)) in
  mk_World (base w) (micro w) (BaseMacroMSM.__init__ (base w) (micro w))
    (warnings w).

End Demo.

(** * Properties *)

(** ** The monad *)

Lemma bind_Ok_inv A B (c : M A) (k : A -> M B) w b w' :
  bind c k w = Ok b w' ->
  exists a w1, c w = Ok a w1 /\ k a w1 = Ok b w'.
Proof.
  unfold bind. destruct (c w) as [a w1 | e w1]; intros E.
  - exists a, w1. split; [reflexivity | exact E].
  - discriminate E.
Qed.

Lemma bind_Ok A B (c : M A) (k : A -> M B) w a w1 :
  c w = Ok a w1 -> bind c k w = k a w1.
Proof. unfold bind. intros ->. reflexivity. Qed.

Lemma bind_Raise A B (c : M A) (k : A -> M B) w e w1 :
  c w = Raise e w1 -> bind c k w = Raise e w1.
Proof. unfold bind. intros ->. reflexivity. Qed.

Lemma bind_assoc A B C (c : M A) (k : A -> M B) (h : B -> M C) w :
  bind (bind c k) h w = bind c (fun a => bind (k a) h) w.
Proof. unfold bind. destruct (c w); reflexivity. Qed.

(** Unfold the primitive operations of the monad. *)
Ltac run :=
  unfold bind, ret, raise, gets, modify, getattr, lift, warn in *;
  cbn [final raised] in *.

(** Push the attribute reads through the attribute writes. *)
Ltac store_simpl :=
  cbv [on_base on_micro on_macro add_warning
       base_set_n_microstates base_set_n_macrostates
       micro_set_lag micro_set_centroids micro_set_N micro_set_labels
       micro_set_C micro_set_T
       macro_set_is_sparse macro_set_lag macro_set_N macro_set_C macro_set_T]
    in *;
  cbn [base micro macro warnings
       base_is_force_db base_is_reversible base_is_sparse base_lag base_data
       base_n_sets base_n_samples base_extent base_n_features
       base_n_microstates base_n_macrostates
       micro_is_force_db micro_is_reversible micro_is_sparse micro_lag
       micro_centroids micro_N micro_labels micro_C micro_T
       macro_is_force_db macro_is_reversible macro_is_sparse macro_lag
       macro_N macro_labels macro_metastable_labels macro_C macro_T] in *;
  cbv beta in *.

(** ** Strings *)

Lemma eqb_eq_string (s t : string) : (s =? t) = true -> s = t.
Proof. apply String.eqb_eq. Qed.

(** The constructor really builds the demo instance. *)
Example base_model_built :
  BaseModel.__init__ Demo.data [] = Val (Demo.base_model false) /\
  BaseModel.__init__ Demo.data [("sparse", PyBool true)]
    = Val (Demo.base_model true).
Proof. split; vm_compute; reflexivity. Qed.

(** ** Re-estimation in [BaseMacroMSM.fit] *)

Section MacroEstimate.

Context {col : Collaborators}.

(** No string is both ['pcca'] and ['hpca'], so the test of line 204 never
    fails. *)
Lemma reestimate_guard_true (method : string) :
  BaseMacroMSM.reestimate_guard method = true.
Proof.
  unfold BaseMacroMSM.reestimate_guard.
  destruct (lower method =? "pcca") eqn:E; [| reflexivity].
  apply eqb_eq_string in E. rewrite E. reflexivity.
Qed.

(** A successful run of lines 203-211 stores the count matrix of the
    labels and the transition matrix estimated from it. *)
Lemma macro_fit_estimate_Ok lag method w w' :
  BaseMacroMSM.fit_estimate lag method w = Ok tt w' ->
  exists labels C T,
    macro_labels (macro w) = Some labels /\
    analysis_count_matrix labels lag (macro_is_sparse (macro w)) = Val C /\
    selected_estimator (macro_is_reversible (macro w))
      (macro_is_force_db (macro w)) C = Val T /\
    w' = on_macro (macro_set_T T) (on_macro (macro_set_C C) w).
Proof.
  unfold BaseMacroMSM.fit_estimate, selected_estimator.
  rewrite reestimate_guard_true. run.
  destruct (macro_labels (macro w)) as [labels |]; [| discriminate].
  destruct (analysis_count_matrix labels lag (macro_is_sparse (macro w)))
    as [C | e] eqn:EC; [| discriminate].
  store_simpl.
  destruct (is_True (macro_is_reversible (macro w))); store_simpl;
    [destruct (is_True (macro_is_force_db (macro w))); store_simpl |].
  all: match goal with
       | |- context [match ?est ?c with Val _ => _ | Exc _ => _ end] =>
           destruct (est c) as [T | e] eqn:ET
       end; intros E; inversion E; subst.
  all: exists labels, C, T; repeat split; assumption || reflexivity.
Qed.

End MacroEstimate.

(** C1. In [BaseMacroMSM.fit] the test [not method.lower() == 'pcca' or not
    method.lower() == 'hpca'] is true for every method string, and every
    successful fit, whatever its method, ends with the transition matrix that
    the estimator selected by the flags computes from the count matrix of the
    labels: the final store is the store [w1] that the coarse-graining
    routine left, with [_C] and then [_T] assigned, so a [_T] that the
    routine had stored in [w1] is overwritten. *)
Theorem macro_fit_always_reestimates {col : Collaborators}
    (n : Z) (lag : pyval) (method : string) (w w' : World) :
  BaseMacroMSM.fit n lag method w = Ok tt w' ->
  BaseMacroMSM.reestimate_guard method = true /\
  exists w0 w1 labels C T,
    let lag' := if is_None lag then macro_lag (macro w) else lag in
    BaseMacroMSM.fit_coarse_grain n lag' method w0 = Ok tt w1 /\
    macro_labels (macro w1) = Some labels /\
    analysis_count_matrix labels lag' (macro_is_sparse (macro w1)) = Val C /\
    selected_estimator (macro_is_reversible (macro w1))
      (macro_is_force_db (macro w1)) C = Val T /\
    w' = on_macro (macro_set_T T) (on_macro (macro_set_C C) w1) /\
    macro_T (macro w') = Some T.
Proof.
  intros E. split; [apply reestimate_guard_true |].
  unfold BaseMacroMSM.fit in E.
  apply bind_Ok_inv in E as (? & wa & Ea & E).
  apply bind_Ok_inv in E as (? & wb & Eb & E).
  apply bind_Ok_inv in E as (lag' & wc & Ec & E).
  apply bind_Ok_inv in E as (? & wd & Ed & E).
  apply bind_Ok_inv in E as ([] & w1 & Ecg & E).
  apply macro_fit_estimate_Ok in E as (labels & C & T & El & EC & ET & Ew).
  assert (Hlag : lag' = if is_None lag then macro_lag (macro w) else lag).
  { unfold BaseMacroMSM.fit_lag in Ec. run.
    inversion Ea; inversion Eb; subst.
    destruct (is_None lag); inversion Ec; reflexivity. }
  exists wd, w1, labels, C, T. cbv zeta. rewrite <- Hlag.
  repeat split; try assumption. subst w'. reflexivity.
Qed.

(** ** Estimation and labelling in [BaseMicroMSM.fit] *)

Section MicroFit.

Context {col : Collaborators}.

(** A successful run of lines 55-63 stores the count matrix of the labels
    and the transition matrix estimated from it, and nothing else. *)
Lemma micro_fit_estimate_Ok lag w w' :
  BaseMicroMSM.fit_estimate lag w = Ok tt w' ->
  exists labels C T,
    micro_labels (micro w) = Some labels /\
    analysis_count_matrix labels lag (micro_is_sparse (micro w)) = Val C /\
    selected_estimator (micro_is_reversible (micro w))
      (micro_is_force_db (micro w)) C = Val T /\
    w' = on_micro (micro_set_T T) (on_micro (micro_set_C C) w).
Proof.
  unfold BaseMicroMSM.fit_estimate, selected_estimator. run.
  destruct (micro_labels (micro w)) as [labels |]; [| discriminate].
  destruct (analysis_count_matrix labels lag (micro_is_sparse (micro w)))
    as [C | e] eqn:EC; [| discriminate].
  store_simpl.
  destruct (is_True (micro_is_reversible (micro w))); store_simpl;
    [destruct (is_True (micro_is_force_db (micro w))); store_simpl |].
  all: match goal with
       | |- context [match ?est ?c with Val _ => _ | Exc _ => _ end] =>
           destruct (est c) as [T | e] eqn:ET
       end; intros E; inversion E; subst.
  all: exists labels, C, T; repeat split; assumption || reflexivity.
Qed.

(** Lines 49-53 return the lag in force and leave it stored; no other
    attribute changes. *)
Lemma micro_fit_lag_spec lag w :
  BaseMicroMSM.fit_lag lag w =
    if is_None lag
    then Ok (micro_lag (micro w)) w
    else Ok lag (on_micro (micro_set_lag lag) w).
Proof. unfold BaseMicroMSM.fit_lag. destruct (is_None lag); reflexivity. Qed.

Lemma micro_fit_lag_Ok lag w lag' w' :
  BaseMicroMSM.fit_lag lag w = Ok lag' w' ->
  micro_lag (micro w') = lag' /\
  micro_centroids (micro w') = micro_centroids (micro w) /\
  micro_labels (micro w') = micro_labels (micro w) /\
  micro_is_reversible (micro w') = micro_is_reversible (micro w) /\
  micro_is_force_db (micro w') = micro_is_force_db (micro w) /\
  micro_is_sparse (micro w') = micro_is_sparse (micro w).
Proof.
  rewrite micro_fit_lag_spec.
  destruct (is_None lag); intros E; inversion E; subst;
    repeat split; reflexivity.
Qed.

End MicroFit.

Section MicroFlags.

Context {col : Collaborators}.

(** The options that [BaseModel.__init__] stores, lines 5-8. *)
Lemma init_options data kw b :
  BaseModel.__init__ data kw = Val b ->
  base_is_force_db b = kwargs_get kw "db" (PyBool false) /\
  base_is_reversible b = kwargs_get kw "rev" (PyBool true) /\
  base_is_sparse b = kwargs_get kw "sparse" (PyBool false) /\
  base_lag b = kwargs_get kw "lag" (PyInt 1).
Proof.
  unfold BaseModel.__init__, res_bind.
  destruct (np.concatenate data) as [cat |]; [| discriminate].
  destruct (np.min0 cat) as [lo |]; [| discriminate].
  destruct (np.max0 cat) as [hi |]; [| discriminate].
  destruct (np.column_stack_flat lo hi) as [extent |]; [| discriminate].
  destruct (map np.shape1 data) as [| first rest]; [discriminate |].
  destruct (np.all_equal (first :: rest) first); [| discriminate].
  intros E. inversion E. repeat split.
Qed.

(** Lines 20-47 write [centroids], [_N], [n_microstates] and [labels]; the
    flags change only if the routine called changes them. *)
Lemma micro_fit_label_keeps_flags N cs kw w wl :
  labellers_keep_flags ->
  BaseMicroMSM.fit_label N cs kw w = Ok tt wl ->
  micro_flags wl = micro_flags w.
Proof.
  intros (Hknn & Hgnb & Hkm & Hmb & Hkd).
  unfold BaseMicroMSM.fit_label.
  destruct N as [n |]; [| destruct cs as [c |]; [| discriminate]].
  - run.
    destruct (py_lower (kwargs_get kw "method" (PyStr "KMeans")))
      as [m |]; [| discriminate].
    fold (micro_after_N n w).
    assert (H0 : micro_flags (micro_after_N n w) = micro_flags w)
      by reflexivity.
    destruct (m =? "kmeans");
      [| destruct (m =? "minibatchkmeans");
         [| destruct (m =? "kmedoids")]].
    + destruct (cluster_KMeans kw (micro_after_N n w)) as [cl w1 |] eqn:Hc;
        [| discriminate].
      intros E; inversion E; subst wl. rewrite <- H0.
      rewrite <- (Hkm kw _ _ _ Hc). reflexivity.
    + destruct (cluster_MiniBatchKMeans kw (micro_after_N n w))
        as [cl w1 |] eqn:Hc; [| discriminate].
      intros E; inversion E; subst wl. rewrite <- H0.
      rewrite <- (Hmb kw _ _ _ Hc). reflexivity.
    + destruct (cluster_KMedoids kw (micro_after_N n w)) as [cl w1 |] eqn:Hc;
        [| discriminate].
      intros E; inversion E; subst wl. rewrite <- H0.
      rewrite <- (Hkd kw _ _ _ Hc). reflexivity.
    + intros E; inversion E. exact H0.
  - run.
    destruct (py_lower (kwargs_get kw "method" (PyStr "KNeighborsClassifier")))
      as [m |]; [| discriminate].
    fold (micro_after_centroids c w).
    assert (H0 : micro_flags (micro_after_centroids c w) = micro_flags w)
      by reflexivity.
    destruct (m =? "kneighborsclassifier").
    + destruct (classifier_KNeighborsClassifier SelfMicro None None kw
                  (micro_after_centroids c w)) as [l w1 |] eqn:Hc;
        [| discriminate].
      pose proof (Hknn _ _ _ kw _ _ _ Hc) as H1.
      destruct (m =? "gaussiannb").
      * destruct (classifier_GaussianNB SelfMicro None None kw
                    (on_micro (micro_set_labels l) w1)) as [l2 w2 |] eqn:Hc2;
          [| discriminate].
        pose proof (Hgnb _ _ _ kw _ _ _ Hc2) as H2.
        intros E; inversion E; subst wl.
        change (micro_flags w2 = micro_flags w). rewrite H2.
        change (micro_flags w1 = micro_flags w). rewrite H1. exact H0.
      * intros E; inversion E; subst wl.
        change (micro_flags w1 = micro_flags w). rewrite H1. exact H0.
    + destruct (m =? "gaussiannb").
      * destruct (classifier_GaussianNB SelfMicro None None kw
                    (micro_after_centroids c w)) as [l2 w2 |] eqn:Hc2;
          [| discriminate].
        pose proof (Hgnb _ _ _ kw _ _ _ Hc2) as H2.
        intros E; inversion E; subst wl.
        change (micro_flags w2 = micro_flags w). rewrite H2. exact H0.
      * intros E; inversion E; subst wl. exact H0.
Qed.

End MicroFlags.

(** C5. A successful [BaseMicroMSM.fit] ends in the store [wl] that the
    labelling step left, with the lag stored when one was passed, then [_C]
    and then [_T] assigned, and nothing else changed: [_C] is the count
    matrix of the labels at the lag in force, and [_T] is computed from it
    by exactly one estimator, chosen by the two flags of the model: the
    symmetric detailed-balance estimator when [_is_reversible] and
    [_is_force_db] are both [True], the reversible estimator when only
    [_is_reversible] is, and the non-reversible estimator when
    [_is_reversible] is not [True].  The flags are not written by [fit]: when
    the labelling routines leave them alone they are the flags the model had
    before the call and has after it, and on a model whose flags are those
    of its construction these are the options [rev] (default [True]) and
    [db] (default [False]) given to [BaseModel]. *)
Theorem micro_fit_selects_one_estimator {col : Collaborators}
    (N : option Z) (centroids : option np.ndarray) (lag : pyval)
    (kw : kwargs) (w w' : World) :
  BaseMicroMSM.fit N centroids lag kw w = Ok tt w' ->
  exists wl labels C T,
    let lag' := if is_None lag then micro_lag (micro wl) else lag in
    let rev := micro_is_reversible (micro wl) in
    let db := micro_is_force_db (micro wl) in
    BaseMicroMSM.fit_label N centroids kw w = Ok tt wl /\
    micro_labels (micro wl) = Some labels /\
    analysis_count_matrix labels lag' (micro_is_sparse (micro wl)) = Val C /\
    (is_True rev = true -> is_True db = true -> sym_T_estimator C = Val T) /\
    (is_True rev = true -> is_True db = false ->
     rev_T_estimator C = Val T) /\
    (is_True rev = false -> nonrev_T_matrix C = Val T) /\
    w' = on_micro (micro_set_T T)
           (on_micro (micro_set_C C) (micro_with_lag lag wl)) /\
    micro_flags w' = micro_flags wl /\
    (labellers_keep_flags ->
     rev = micro_is_reversible (micro w) /\
     db = micro_is_force_db (micro w) /\
     micro_is_sparse (micro wl) = micro_is_sparse (micro w) /\
     forall data options b,
       BaseModel.__init__ data options = Val b ->
       micro_is_reversible (micro w)
         = micro_is_reversible (BaseMicroMSM.__init__ b) ->
       micro_is_force_db (micro w)
         = micro_is_force_db (BaseMicroMSM.__init__ b) ->
       rev = kwargs_get options "rev" (PyBool true) /\
       db = kwargs_get options "db" (PyBool false)).
Proof.
  intros E. unfold BaseMicroMSM.fit in E.
  apply bind_Ok_inv in E as ([] & wl & Hlab & E).
  apply bind_Ok_inv in E as (lag' & wb & Hlag & E).
  rewrite micro_fit_lag_spec in Hlag.
  apply micro_fit_estimate_Ok in E as (labels & C & T & Hl & HC & HT & ->).
  exists wl, labels, C, T. cbv zeta.
  unfold selected_estimator, micro_with_lag in *.
  assert (Hwb : wb = (if is_None lag then wl
                      else on_micro (micro_set_lag lag) wl) /\
                lag' = (if is_None lag then micro_lag (micro wl) else lag))
    by (destruct (is_None lag); inversion Hlag; split; reflexivity).
  destruct Hwb as [-> ->].
  assert (Hproj : micro_labels (micro (if is_None lag then wl
                                       else on_micro (micro_set_lag lag) wl))
                  = micro_labels (micro wl) /\
                  micro_flags (if is_None lag then wl
                               else on_micro (micro_set_lag lag) wl)
                  = micro_flags wl)
    by (destruct (is_None lag); split; reflexivity).
  destruct Hproj as [Hpl Hpf].
  unfold micro_flags in Hpf. cbn [micro on_micro micro_set_T micro_set_C].
  injection Hpf as Hdb Hrev Hsp.
  rewrite Hpl in Hl. rewrite Hsp in HC. rewrite Hrev, Hdb in HT.
  split; [exact Hlab |]. split; [exact Hl |]. split; [exact HC |].
  split; [intros Hr Hd; rewrite Hr, Hd in HT; exact HT |].
  split; [intros Hr Hd; rewrite Hr, Hd in HT; exact HT |].
  split; [intros Hr; rewrite Hr in HT; exact HT |].
  split; [reflexivity |].
  split.
  { unfold micro_flags. store_simpl. rewrite Hdb, Hrev, Hsp. reflexivity. }
  intros Hkeep.
  pose proof (@micro_fit_label_keeps_flags _ _ _ _ _ _ Hkeep Hlab) as Hf.
  unfold micro_flags in Hf. injection Hf as Hfdb Hfrev Hfsp.
  split; [exact Hfrev |]. split; [exact Hfdb |]. split; [exact Hfsp |].
  intros data options b Hb Hmrev Hmdb.
  destruct (@init_options _ _ _ Hb) as (Hbdb & Hbrev & _).
  rewrite Hfrev, Hfdb, Hmrev, Hmdb.
  cbn [BaseMicroMSM.__init__ micro_is_reversible micro_is_force_db].
  split; assumption.
Qed.

Section MicroLabel.

Context {col : Collaborators}.

Lemma eqb_neq_string (s t : string) : s <> t -> (s =? t) = false.
Proof. apply String.eqb_neq. Qed.

Lemma micro_fit_lag_with_lag lag w :
  exists lag', BaseMicroMSM.fit_lag lag w = Ok lag' (micro_with_lag lag w).
Proof.
  rewrite micro_fit_lag_spec. unfold micro_with_lag.
  destruct (is_None lag); eexists; reflexivity.
Qed.

(** Reading [self.labels] on a model without labels ends lines 55-63 at
    once. *)
Lemma micro_fit_estimate_no_labels lag w :
  micro_labels (micro w) = None ->
  BaseMicroMSM.fit_estimate lag w = Raise AttributeError w.
Proof.
  intros H. unfold BaseMicroMSM.fit_estimate. run. rewrite H. reflexivity.
Qed.

(** With a method name that no test of the centroid branch recognises,
    lines 26-33 assign [centroids], [_N] and [n_microstates] and call no
    classifier. *)
Lemma micro_fit_label_centroids_unrecognised c kw s w :
  kwargs_lookup kw "method" = Some (PyStr s) ->
  lower s <> "kneighborsclassifier" ->
  lower s <> "gaussiannb" ->
  BaseMicroMSM.fit_label None (Some c) kw w
    = Ok tt (micro_after_centroids c w).
Proof.
  intros Hm H1 H2.
  unfold BaseMicroMSM.fit_label, kwargs_get. rewrite Hm.
  run. cbn [py_lower].
  rewrite (eqb_neq_string H1), (eqb_neq_string H2). reflexivity.
Qed.

(** The same for the clustering branch, lines 36-47: only [_N] and
    [n_microstates] are assigned and no clustering routine is called. *)
Lemma micro_fit_label_N_unrecognised n cs kw s w :
  kwargs_lookup kw "method" = Some (PyStr s) ->
  lower s <> "kmeans" ->
  lower s <> "minibatchkmeans" ->
  lower s <> "kmedoids" ->
  BaseMicroMSM.fit_label (Some n) cs kw w = Ok tt (micro_after_N n w).
Proof.
  intros Hm H1 H2 H3.
  unfold BaseMicroMSM.fit_label, kwargs_get. rewrite Hm.
  run. cbn [py_lower].
  rewrite (eqb_neq_string H1), (eqb_neq_string H2), (eqb_neq_string H3).
  reflexivity.
Qed.

(** When labelling succeeds on a model that never had labels, but assigned
    none, the whole [fit] fails when line 56 reads [self.labels]. *)
Lemma micro_fit_fails_without_labels N cs lag kw w wl :
  BaseMicroMSM.fit_label N cs kw w = Ok tt wl ->
  micro_labels (micro wl) = None ->
  BaseMicroMSM.fit N cs lag kw w
    = Raise AttributeError (micro_with_lag lag wl).
Proof.
  intros Hl Hn. unfold BaseMicroMSM.fit.
  erewrite bind_Ok by exact Hl.
  destruct (micro_fit_lag_with_lag lag wl) as (lag' & El).
  erewrite bind_Ok by exact El.
  apply micro_fit_estimate_no_labels.
  unfold micro_with_lag. destruct (is_None lag); store_simpl; exact Hn.
Qed.

End MicroLabel.

(** C10. [BaseMicroMSM.fit] does not validate its method string.  When
    [kwargs] carries a method [s] that no test of the branch taken
    recognises, the labelling step (lines 20-47) ends normally without having
    called a classifier or a clustering routine: the result below mentions no
    collaborator and holds for all of them.  On a model without labels it
    has by then overwritten [centroids] (centroid branch), [_N] and
    [n_microstates]; [labels] is still missing, and the call fails with the
    [AttributeError] of reading [self.labels] in the count-matrix step,
    after having stored the lag when one was passed.  [_C] and [_T] are
    untouched. *)
Theorem micro_fit_unrecognised_method {col : Collaborators}
    (kw : kwargs) (s : string) (lag : pyval) (w : World) :
  kwargs_lookup kw "method" = Some (PyStr s) ->
  micro_labels (micro w) = None ->
  (forall c,
      lower s <> "kneighborsclassifier" ->
      lower s <> "gaussiannb" ->
      let w' := micro_with_lag lag (micro_after_centroids c w) in
      BaseMicroMSM.fit_label None (Some c) kw w
        = Ok tt (micro_after_centroids c w) /\
      BaseMicroMSM.fit None (Some c) lag kw w = Raise AttributeError w' /\
      micro_labels (micro w') = None /\
      micro_centroids (micro w') = Some c /\
      micro_N (micro w') = Some (Z.of_nat (np.shape0 c)) /\
      base_n_microstates (base w') = Some (Z.of_nat (np.shape0 c)) /\
      micro_C (micro w') = micro_C (micro w) /\
      micro_T (micro w') = micro_T (micro w)) /\
  (forall n cs,
      lower s <> "kmeans" ->
      lower s <> "minibatchkmeans" ->
      lower s <> "kmedoids" ->
      let w' := micro_with_lag lag (micro_after_N n w) in
      BaseMicroMSM.fit_label (Some n) cs kw w = Ok tt (micro_after_N n w) /\
      BaseMicroMSM.fit (Some n) cs lag kw w = Raise AttributeError w' /\
      micro_labels (micro w') = None /\
      micro_centroids (micro w') = micro_centroids (micro w) /\
      micro_N (micro w') = Some n /\
      base_n_microstates (base w') = Some n /\
      micro_C (micro w') = micro_C (micro w) /\
      micro_T (micro w') = micro_T (micro w)).
Proof.
  intros Hm Hn. split.
  - intros c H1 H2 w'.
    pose proof (micro_fit_label_centroids_unrecognised c kw w Hm H1 H2) as Hl.
    split; [exact Hl |]. split.
    + apply micro_fit_fails_without_labels; [exact Hl | exact Hn].
    + subst w'. unfold micro_with_lag, micro_after_centroids.
      destruct (is_None lag); store_simpl; repeat split; assumption || reflexivity.
  - intros n cs H1 H2 H3 w'.
    pose proof (micro_fit_label_N_unrecognised n cs kw w Hm H1 H2 H3) as Hl.
    split; [exact Hl |]. split.
    + apply micro_fit_fails_without_labels; [exact Hl | exact Hn].
    + subst w'. unfold micro_with_lag, micro_after_N.
      destruct (is_None lag); store_simpl; repeat split; assumption || reflexivity.
Qed.

Section MicroClusterBranch.

Context {col : Collaborators}.

Lemma micro_fit_label_clustered n cs kw w cl w1 :
  let m := py_lower (kwargs_get kw "method" (PyStr "KMeans")) in
  (m = Val "kmeans" /\ cluster_KMeans kw (micro_after_N n w) = Ok cl w1) \/
  (m = Val "minibatchkmeans" /\
   cluster_MiniBatchKMeans kw (micro_after_N n w) = Ok cl w1) \/
  (m = Val "kmedoids" /\
   cluster_KMedoids kw (micro_after_N n w) = Ok cl w1) ->
  BaseMicroMSM.fit_label (Some n) cs kw w
    = Ok tt (micro_after_clustering cl w1).
Proof.
  intros m H. subst m.
  unfold BaseMicroMSM.fit_label. run.
  fold (micro_after_N n w).
  destruct H as [[Hm Hc] | [[Hm Hc] | [Hm Hc]]];
    rewrite Hm; cbn [String.eqb Ascii.eqb Bool.eqb]; rewrite Hc; reflexivity.
Qed.

(** After labelling, [fit] writes [lag], [_C] and [_T] only. *)
Lemma micro_fit_keeps_labelling N cs lag kw w wl w' :
  BaseMicroMSM.fit_label N cs kw w = Ok tt wl ->
  BaseMicroMSM.fit N cs lag kw w = Ok tt w' ->
  micro_centroids (micro w') = micro_centroids (micro wl) /\
  micro_labels (micro w') = micro_labels (micro wl).
Proof.
  intros Hl E. unfold BaseMicroMSM.fit in E.
  erewrite bind_Ok in E by exact Hl.
  apply bind_Ok_inv in E as (lag' & wb & Eb & E).
  apply micro_fit_lag_Ok in Eb as (_ & Hc & Hlab & _).
  apply micro_fit_estimate_Ok in E as (labels & C & T & _ & _ & _ & Ew).
  subst w'. store_simpl. split; assumption.
Qed.

End MicroClusterBranch.

(** C9. When [BaseMicroMSM.fit] receives both [N] and [centroids], the
    [centroids] argument is ignored: the call is the call without it.  No
    check rejects the pair; the clustering branch runs, and when the routine
    that the method names returns [cl], labelling ends normally with
    [centroids] and [labels] taken from [cl], which is what a successful fit
    then still holds. *)
Theorem micro_fit_N_ignores_centroids {col : Collaborators}
    (n : Z) (c : np.ndarray) (lag : pyval) (kw : kwargs) (w : World) :
  BaseMicroMSM.fit (Some n) (Some c) lag kw w
    = BaseMicroMSM.fit (Some n) None lag kw w /\
  forall cl w1,
    let m := py_lower (kwargs_get kw "method" (PyStr "KMeans")) in
    (m = Val "kmeans" /\ cluster_KMeans kw (micro_after_N n w) = Ok cl w1) \/
    (m = Val "minibatchkmeans" /\
     cluster_MiniBatchKMeans kw (micro_after_N n w) = Ok cl w1) \/
    (m = Val "kmedoids" /\
     cluster_KMedoids kw (micro_after_N n w) = Ok cl w1) ->
    BaseMicroMSM.fit_label (Some n) (Some c) kw w
      = Ok tt (micro_after_clustering cl w1) /\
    forall w',
      BaseMicroMSM.fit (Some n) (Some c) lag kw w = Ok tt w' ->
      micro_centroids (micro w') = Some (fst cl) /\
      micro_labels (micro w') = Some (snd cl).
Proof.
  split; [reflexivity |].
  intros cl w1 m H.
  pose proof (micro_fit_label_clustered n (Some c) kw w H) as Hl.
  split; [exact Hl |].
  intros w' E.
  eapply micro_fit_keeps_labelling in E as [Hc Hlab]; [| exact Hl].
  rewrite Hc, Hlab. split; reflexivity.
Qed.

(** ** [BaseMicroMSM.update] *)

Section MicroUpdate.

Context {col : Collaborators}.

(** An item whose key is not ['lag'] does nothing. *)
Lemma micro_update_item_other key val w :
  (key =? "lag") = false -> BaseMicroMSM.update_item key val w = Ok tt w.
Proof. unfold BaseMicroMSM.update_item. intros ->. reflexivity. Qed.

Lemma micro_update_without_lag kw w :
  has_key kw "lag" = false -> BaseMicroMSM.update kw w = Ok tt w.
Proof.
  induction kw as [| [key val] rest IH]; intros H; [reflexivity |].
  unfold has_key in H. cbn [existsb fst] in H.
  apply orb_false_iff in H as [Hk Hrest].
  cbn [BaseMicroMSM.update].
  erewrite bind_Ok by (apply micro_update_item_other; exact Hk).
  apply IH. exact Hrest.
Qed.

Lemma has_key_false_not_In kw key :
  ~ In key (map fst kw) -> has_key kw key = false.
Proof.
  induction kw as [| [k v] rest IH]; intros H; [reflexivity |].
  unfold has_key. cbn [existsb fst map In] in *.
  apply orb_false_iff. split.
  - apply String.eqb_neq. intros ->. apply H. left. reflexivity.
  - apply IH. intros Hin. apply H. right. exact Hin.
Qed.

(** With pairwise distinct keywords, [update] is its ['lag'] item. *)
Lemma micro_update_is_lag_item kw v w :
  NoDup (map fst kw) ->
  kwargs_lookup kw "lag" = Some v ->
  BaseMicroMSM.update kw w = BaseMicroMSM.update_item "lag" v w.
Proof.
  induction kw as [| [key val] rest IH]; intros Hnd Hl; [discriminate |].
  cbn [map fst] in Hnd. inversion Hnd as [| ? ? Hnotin Hnd']; subst.
  cbn [kwargs_lookup] in Hl. cbn [BaseMicroMSM.update].
  destruct (key =? "lag") eqn:Hk.
  - apply String.eqb_eq in Hk. subst key. inversion Hl; subst val.
    unfold bind.
    destruct (BaseMicroMSM.update_item "lag" v w) as [[] w1 | e w1];
      [| reflexivity].
    apply micro_update_without_lag, has_key_false_not_In. exact Hnotin.
  - erewrite bind_Ok by (apply micro_update_item_other; exact Hk).
    apply IH; assumption.
Qed.

(** The ['lag'] item on a model with labels: the lag is stored, the count
    matrix of the existing labels at that lag is stored, and then the
    transition matrix estimated from it. *)
Lemma micro_update_item_lag v w labels C T :
  micro_labels (micro w) = Some labels ->
  analysis_count_matrix labels v (micro_is_sparse (micro w)) = Val C ->
  selected_estimator (micro_is_reversible (micro w))
    (micro_is_force_db (micro w)) C = Val T ->
  BaseMicroMSM.update_item "lag" v w
    = Ok tt (on_micro (micro_set_T T)
               (on_micro (micro_set_C C) (on_micro (micro_set_lag v) w))).
Proof.
  intros Hl HC HT.
  unfold BaseMicroMSM.update_item, BaseMicroMSM._transition_matrix,
    BaseMicroMSM._count_matrix, selected_estimator in *.
  cbn [String.eqb Ascii.eqb Bool.eqb]. run. store_simpl.
  rewrite Hl. store_simpl. rewrite HC. store_simpl.
  destruct (is_None v); cbn [negb]; store_simpl;
    rewrite ?Hl; store_simpl; rewrite ?HC; store_simpl;
    (destruct (is_True (micro_is_reversible (micro w))); store_simpl;
     [destruct (is_True (micro_is_force_db (micro w))); store_simpl |]);
    rewrite HT; reflexivity.
Qed.

End MicroUpdate.

(** C6. On a model that has labels, [update] with a ['lag'] keyword of value
    [v] (among pairwise distinct keywords) stores [v] as the lag, the count
    matrix of the existing labels at lag [v], and the transition matrix
    estimated from it; [labels], [centroids] and every other attribute of
    the hierarchy keep their value, and no labelling routine takes part.  An
    [update] without a ['lag'] keyword changes nothing at all. *)
Theorem micro_update_lag_only {col : Collaborators} :
  (forall kw v w labels C T,
      NoDup (map fst kw) ->
      kwargs_lookup kw "lag" = Some v ->
      micro_labels (micro w) = Some labels ->
      analysis_count_matrix labels v (micro_is_sparse (micro w)) = Val C ->
      selected_estimator (micro_is_reversible (micro w))
        (micro_is_force_db (micro w)) C = Val T ->
      exists w',
        BaseMicroMSM.update kw w = Ok tt w' /\
        w' = on_micro (micro_set_T T)
               (on_micro (micro_set_C C) (on_micro (micro_set_lag v) w)) /\
        micro_lag (micro w') = v /\
        micro_C (micro w') = Some C /\
        micro_T (micro w') = Some T /\
        micro_labels (micro w') = micro_labels (micro w) /\
        micro_centroids (micro w') = micro_centroids (micro w) /\
        micro_N (micro w') = micro_N (micro w) /\
        base w' = base w /\
        macro w' = macro w) /\
  (forall kw w, has_key kw "lag" = false -> BaseMicroMSM.update kw w = Ok tt w).
Proof.
  split.
  - intros kw v w labels C T Hnd Hlag Hl HC HT.
    eexists. split.
    + erewrite micro_update_is_lag_item by eassumption.
      eapply micro_update_item_lag; eassumption.
    + store_simpl. repeat split; reflexivity.
  - intros kw w. apply micro_update_without_lag.
Qed.

(** ** The argument checks of [BaseMacroMSM.fit] *)

Section MacroValidate.

Context {col : Collaborators}.

(** [fit] is its first assignments followed by the three blocks. *)
Lemma macro_fit_unfold n lag method w :
  BaseMacroMSM.fit n lag method w =
    bind BaseMacroMSM.fit_validate
      (fun _ =>
         bind (BaseMacroMSM.fit_coarse_grain n (macro_lag_in_force lag w)
                 method)
           (fun _ =>
              BaseMacroMSM.fit_estimate (macro_lag_in_force lag w) method))
      (macro_after_assignments n lag w).
Proof.
  unfold BaseMacroMSM.fit, BaseMacroMSM.fit_lag, macro_after_assignments,
    macro_lag_in_force.
  destruct (is_None lag); reflexivity.
Qed.

Lemma macro_after_assignments_frame n lag w :
  let w' := macro_after_assignments n lag w in
  macro_N (macro w') = Some n /\
  base_n_macrostates (base w') = Some n /\
  micro w' = micro w /\
  warnings w' = warnings w /\
  base_is_sparse (base w') = base_is_sparse (base w) /\
  macro_is_sparse (macro w') = macro_is_sparse (macro w) /\
  macro_labels (macro w') = macro_labels (macro w) /\
  macro_C (macro w') = macro_C (macro w) /\
  macro_T (macro w') = macro_T (macro w).
Proof.
  unfold macro_after_assignments.
  destruct (is_None lag); store_simpl; repeat split; reflexivity.
Qed.

(** The checks fail on a micro model without [_N]. *)
Lemma macro_validate_micro_unfit n w :
  macro_N (macro w) = Some n ->
  micro_N (micro w) = None ->
  BaseMacroMSM.fit_validate w = Raise AttributeError w.
Proof.
  intros Hn Hm. unfold BaseMacroMSM.fit_validate. run.
  rewrite Hn, Hm. reflexivity.
Qed.

(** Line 174: too many macrostates. *)
Lemma macro_validate_too_many n nm w :
  macro_N (macro w) = Some n ->
  micro_N (micro w) = Some nm ->
  (n > nm - 1)%Z ->
  BaseMacroMSM.fit_validate w = Raise AttributeError w.
Proof.
  intros Hn Hm Hgt. unfold BaseMacroMSM.fit_validate. run.
  rewrite Hn, Hm.
  destruct (Z.gtb_spec n (nm - 1)); [reflexivity | lia].
Qed.

(** Lines 185-188: few macrostates on a macro model whose own flag is
    set. *)
Lemma macro_validate_sparse_small n w :
  macro_N (macro w) = Some n ->
  (n < 4)%Z ->
  truthy (macro_is_sparse (macro w)) = true ->
  BaseMacroMSM.fit_validate w = Raise AttributeError w.
Proof.
  intros Hn Hlt Hsp. unfold BaseMacroMSM.fit_validate. run.
  rewrite Hn.
  destruct (micro_N (micro w)) as [nm |]; [| reflexivity].
  destruct (Z.gtb_spec n (nm - 1)); [reflexivity |].
  rewrite Hn.
  destruct (Z.geb_spec n 4000); [lia |].
  rewrite Hn.
  destruct (Z.ltb_spec n 4); [| lia].
  rewrite Hsp. reflexivity.
Qed.

(** Lines 177-183: many macrostates on a dense [BaseModel]; the flag is
    copied, the warning is issued and the checks end normally. *)
Lemma macro_validate_large_dense n nm w :
  macro_N (macro w) = Some n ->
  micro_N (micro w) = Some nm ->
  (n <= nm - 1)%Z ->
  (4000 <= n)%Z ->
  truthy (base_is_sparse (base w)) = false ->
  BaseMacroMSM.fit_validate w
    = Ok tt (add_warning BaseMacroMSM.sparse_advice
               (on_macro (macro_set_is_sparse (base_is_sparse (base w))) w)).
Proof.
  intros Hn Hm Hle Hge Hsp. unfold BaseMacroMSM.fit_validate. run.
  rewrite Hn, Hm.
  destruct (Z.gtb_spec n (nm - 1)); [lia |].
  rewrite Hn.
  destruct (Z.geb_spec n 4000); [| lia].
  store_simpl. rewrite Hsp. reflexivity.
Qed.

(** A run of lines 203-211 on a store with labels whose count matrix and
    estimate exist. *)
Lemma macro_fit_estimate_run lag method w labels C T :
  macro_labels (macro w) = Some labels ->
  analysis_count_matrix labels lag (macro_is_sparse (macro w)) = Val C ->
  selected_estimator (macro_is_reversible (macro w))
    (macro_is_force_db (macro w)) C = Val T ->
  BaseMacroMSM.fit_estimate lag method w
    = Ok tt (on_macro (macro_set_T T) (on_macro (macro_set_C C) w)).
Proof.
  intros Hl HC HT.
  unfold BaseMacroMSM.fit_estimate, selected_estimator in *.
  rewrite reestimate_guard_true. run.
  rewrite Hl, HC. store_simpl.
  destruct (is_True (macro_is_reversible (macro w))); store_simpl;
    [destruct (is_True (macro_is_force_db (macro w))); store_simpl |];
    rewrite HT; reflexivity.
Qed.

End MacroValidate.

Section MacroCheckFailure.

Context {col : Collaborators}.

(** A [fit] of the macro model whose argument checks fail ends in the
    store that its first assignments produced. *)
Lemma macro_fit_check_failure n lag method w :
  micro_N (micro w) = None \/
  (exists nm, micro_N (micro w) = Some nm /\ (n > nm - 1)%Z) \/
  ((n < 4)%Z /\ truthy (macro_is_sparse (macro w)) = true) ->
  BaseMacroMSM.fit n lag method w
    = Raise AttributeError (macro_after_assignments n lag w).
Proof.
  intros H.
  destruct (macro_after_assignments_frame n lag w)
    as (HN & _ & Hmi & _ & _ & Hsp & _).
  rewrite macro_fit_unfold. apply bind_Raise.
  destruct H as [Hnone | [(nm & Hnm & Hgt) | (Hlt & Hs)]].
  - eapply macro_validate_micro_unfit; [exact HN |].
    rewrite Hmi. exact Hnone.
  - eapply macro_validate_too_many; [exact HN | | exact Hgt].
    rewrite Hmi. exact Hnm.
  - eapply macro_validate_sparse_small; [exact HN | exact Hlt |].
    rewrite Hsp. exact Hs.
Qed.

End MacroCheckFailure.

(** C2, as the code has it.  A [fit] that raises does not restore the
    attributes; there is no buffering, each assignment takes effect when it
    is executed.  What holds: [BaseMicroMSM.fit] without [N] and without
    [centroids] raises and changes nothing; a [BaseMacroMSM.fit] that raises
    in its argument checks (micro model without [_N], more macrostates than
    [_micro._N - 1], or fewer than 4 with the model's sparse flag set) leaves
    [labels], [_C], [_T] and the micro model as they were, and has by then
    stored the number of macrostates on the model and on the [BaseModel],
    and the lag when one was passed. *)
Theorem fit_failure_effects {col : Collaborators} :
  (forall lag kw w,
      BaseMicroMSM.fit None None lag kw w = Raise AttributeError w) /\
  (forall n lag method w,
      micro_N (micro w) = None \/
      (exists nm, micro_N (micro w) = Some nm /\ (n > nm - 1)%Z) \/
      ((n < 4)%Z /\ truthy (macro_is_sparse (macro w)) = true) ->
      let w' := macro_after_assignments n lag w in
      BaseMacroMSM.fit n lag method w = Raise AttributeError w' /\
      macro_N (macro w') = Some n /\
      base_n_macrostates (base w') = Some n /\
      macro_lag (macro w') = macro_lag_in_force lag w /\
      macro_labels (macro w') = macro_labels (macro w) /\
      macro_C (macro w') = macro_C (macro w) /\
      macro_T (macro w') = macro_T (macro w) /\
      micro w' = micro w).
Proof.
  split; [reflexivity |].
  intros n lag method w H w'.
  destruct (macro_after_assignments_frame n lag w)
    as (HN & Hb & Hmi & _ & _ & _ & Hl & HC & HT).
  fold w' in HN, Hb, Hmi, Hl, HC, HT.
  split; [apply macro_fit_check_failure; exact H |].
  repeat split; try assumption.
  subst w'. unfold macro_after_assignments, macro_lag_in_force.
  destruct (is_None lag); reflexivity.
Qed.

(** C3, as the code has it.  [BaseMacroMSM.fit] raises [AttributeError] when
    the number of macrostates exceeds [_micro._N - 1].  It raises
    [AttributeError] when the number is below 4 and the macro model's own
    flag [_is_sparse] is set; the constructor sets that flag to [False]
    whatever the [BaseModel] says, and only a fit with at least 4000
    macrostates copies the [BaseModel]'s flag into it.  With at least 4000
    macrostates, at most [_micro._N - 1], on a [BaseModel] that is not
    sparse, it issues the warning and goes on with coarse-graining and
    estimation, so that it succeeds whenever these two steps do. *)
Theorem macro_fit_checks {col : Collaborators}
    (n : Z) (lag : pyval) (method : string) (w : World) :
  (forall nm,
      micro_N (micro w) = Some nm -> (n > nm - 1)%Z ->
      raised (BaseMacroMSM.fit n lag method w) = Some AttributeError) /\
  ((n < 4)%Z -> truthy (macro_is_sparse (macro w)) = true ->
   raised (BaseMacroMSM.fit n lag method w) = Some AttributeError) /\
  (forall b mi, macro_is_sparse (BaseMacroMSM.__init__ b mi) = PyBool false) /\
  (forall nm,
      micro_N (micro w) = Some nm -> (n <= nm - 1)%Z -> (4000 <= n)%Z ->
      truthy (base_is_sparse (base w)) = false ->
      let lag' := macro_lag_in_force lag w in
      let w1 := add_warning BaseMacroMSM.sparse_advice
                  (on_macro (macro_set_is_sparse (base_is_sparse (base w)))
                     (macro_after_assignments n lag w)) in
      warnings w1 = (warnings w ++ [BaseMacroMSM.sparse_advice])%list /\
      BaseMacroMSM.fit n lag method w
        = bind (BaseMacroMSM.fit_coarse_grain n lag' method)
            (fun _ => BaseMacroMSM.fit_estimate lag' method) w1 /\
      forall w2 labels C T,
        BaseMacroMSM.fit_coarse_grain n lag' method w1 = Ok tt w2 ->
        macro_labels (macro w2) = Some labels ->
        analysis_count_matrix labels lag' (macro_is_sparse (macro w2))
          = Val C ->
        selected_estimator (macro_is_reversible (macro w2))
          (macro_is_force_db (macro w2)) C = Val T ->
        BaseMacroMSM.fit n lag method w
          = Ok tt (on_macro (macro_set_T T) (on_macro (macro_set_C C) w2))).
Proof.
  split; [| split; [| split]].
  - intros nm Hnm Hgt.
    rewrite macro_fit_check_failure;
      [reflexivity | right; left; exists nm; split; assumption].
  - intros Hlt Hs.
    rewrite macro_fit_check_failure;
      [reflexivity | right; right; split; assumption].
  - reflexivity.
  - intros nm Hnm Hle Hge Hdense lag' w1.
    destruct (macro_after_assignments_frame n lag w)
      as (HN & _ & Hmi & Hw & Hbs & _).
    assert (Hv : BaseMacroMSM.fit_validate (macro_after_assignments n lag w)
                 = Ok tt w1).
    { subst w1. rewrite <- Hbs.
      eapply macro_validate_large_dense;
        [exact HN | rewrite Hmi; exact Hnm | exact Hle | exact Hge |].
      rewrite Hbs. exact Hdense. }
    assert (Hfit : BaseMacroMSM.fit n lag method w
                   = bind (BaseMacroMSM.fit_coarse_grain n lag' method)
                       (fun _ => BaseMacroMSM.fit_estimate lag' method) w1).
    { rewrite macro_fit_unfold. erewrite bind_Ok by exact Hv. reflexivity. }
    split; [| split].
    + subst w1. unfold add_warning. cbn [warnings]. unfold on_macro.
      cbn [warnings]. rewrite Hw. reflexivity.
    + exact Hfit.
    + intros w2 labels C T Hcg Hl HC HT.
      rewrite Hfit. erewrite bind_Ok by exact Hcg.
      apply macro_fit_estimate_run with (labels := labels); assumption.
Qed.

(** ** The dispatch of [BaseMacroMSM.fit] *)

Section MacroDispatch.

Context {col : Collaborators}.

(** The argument checks raise nothing but [AttributeError]. *)
Lemma macro_validate_raises_AttributeError w :
  raised (BaseMacroMSM.fit_validate w) = None \/
  raised (BaseMacroMSM.fit_validate w) = Some AttributeError.
Proof.
  unfold BaseMacroMSM.fit_validate. run.
  destruct (macro_N (macro w)) as [n |] eqn:Hn; [| right; reflexivity].
  destruct (micro_N (micro w)) as [nm |]; [| right; reflexivity].
  destruct (n >? nm - 1)%Z; [right; reflexivity |].
  rewrite Hn.
  destruct (n >=? 4000)%Z.
  - store_simpl.
    destruct (truthy (base_is_sparse (base w))); left; reflexivity.
  - rewrite Hn.
    destruct (n <? 4)%Z; [| left; reflexivity].
    destruct (truthy (macro_is_sparse (macro w)));
      [right | left]; reflexivity.
Qed.

(** A name outside the five raises at line 201. *)
Lemma macro_coarse_grain_unrecognised n lag method w :
  ~ In (lower method) coarse_grain_methods ->
  BaseMacroMSM.fit_coarse_grain n lag method w = Raise AttributeError w.
Proof.
  intros H. unfold BaseMacroMSM.fit_coarse_grain.
  unfold coarse_grain_methods in H. cbn [In] in H.
  repeat match goal with
         | |- context [lower method =? ?s] =>
             rewrite (eqb_neq_string (s := lower method) (t := s))
               by (intros E; apply H; rewrite E; tauto)
         end.
  reflexivity.
Qed.

End MacroDispatch.

(** C8. [BaseMacroMSM.fit] runs its argument checks and then the one
    coarse-graining routine whose name equals the lower-cased [method]:
    [GMM] for ['gmm'], [HC] for ['hc'], [HMM] for ['hmm'], [HPCA] for
    ['hpca'], [PCCA] for ['pcca'].  For a method whose lower-cased form is
    none of the five the dispatch raises [AttributeError] without calling a
    routine, and the whole call ends with [AttributeError] on every store. *)
Theorem macro_fit_dispatch {col : Collaborators}
    (n : Z) (lag : pyval) (method : string) :
  (forall w,
      BaseMacroMSM.fit n lag method w =
        bind BaseMacroMSM.fit_validate
          (fun _ =>
             bind (BaseMacroMSM.fit_coarse_grain n (macro_lag_in_force lag w)
                     method)
               (fun _ =>
                  BaseMacroMSM.fit_estimate (macro_lag_in_force lag w) method))
          (macro_after_assignments n lag w)) /\
  (lower method = "gmm" ->
   forall l, BaseMacroMSM.fit_coarse_grain n l method = coarse_grain_GMM n) /\
  (lower method = "hc" ->
   forall l, BaseMacroMSM.fit_coarse_grain n l method = coarse_grain_HC n) /\
  (lower method = "hmm" ->
   forall l, BaseMacroMSM.fit_coarse_grain n l method = coarse_grain_HMM n) /\
  (lower method = "hpca" ->
   forall l, BaseMacroMSM.fit_coarse_grain n l method = coarse_grain_HPCA n) /\
  (lower method = "pcca" ->
   forall l, BaseMacroMSM.fit_coarse_grain n l method
             = coarse_grain_PCCA n l) /\
  (~ In (lower method) coarse_grain_methods ->
   (forall l w,
       BaseMacroMSM.fit_coarse_grain n l method w = Raise AttributeError w) /\
   (forall w,
       raised (BaseMacroMSM.fit n lag method w) = Some AttributeError)).
Proof.
  split; [intros w; apply macro_fit_unfold |].
  repeat split.
  1-5: intros H l; unfold BaseMacroMSM.fit_coarse_grain; rewrite H;
       reflexivity.
  - intros l w. apply macro_coarse_grain_unrecognised. assumption.
  - intros w. rewrite macro_fit_unfold. unfold bind at 1.
    destruct (macro_validate_raises_AttributeError
                (macro_after_assignments n lag w)) as [Hv | Hv];
      destruct (BaseMacroMSM.fit_validate (macro_after_assignments n lag w))
        as [[] wv | e wv]; cbn [raised] in Hv; try discriminate Hv.
    + erewrite bind_Raise
        by (apply macro_coarse_grain_unrecognised; assumption).
      reflexivity.
    + inversion Hv. reflexivity.
Qed.

(** ** Queries before any fit *)

Section Queries.

Context {col : Collaborators}.

(** Queries of the micro model that read [_T]. *)
Lemma micro_T_queries_unfit w :
  micro_T (micro w) = None ->
  BaseMicroMSM.stationary_distribution w = Raise AttributeError w /\
  (forall k ncv, BaseMicroMSM.eigenvalues k ncv w = Raise AttributeError w) /\
  (forall origin target,
      BaseMicroMSM.mfpt origin target w = Raise AttributeError w) /\
  BaseMicroMSM.transition_matrix w = Raise AttributeError w.
Proof.
  intros H.
  unfold BaseMicroMSM.stationary_distribution, BaseMicroMSM.eigenvalues,
    BaseMicroMSM.mfpt, BaseMicroMSM.transition_matrix.
  run. rewrite H. repeat split.
Qed.

(** Queries of the macro model that read [_T]. *)
Lemma macro_T_queries_unfit w :
  macro_T (macro w) = None ->
  BaseMacroMSM.stationary_distribution w = Raise AttributeError w /\
  (forall k ncv, BaseMacroMSM.eigenvalues k ncv w = Raise AttributeError w) /\
  (forall origin target,
      BaseMacroMSM.mfpt origin target w = Raise AttributeError w) /\
  BaseMacroMSM.transition_matrix w = Raise AttributeError w.
Proof.
  intros H.
  unfold BaseMacroMSM.stationary_distribution, BaseMacroMSM.eigenvalues,
    BaseMacroMSM.mfpt, BaseMacroMSM.transition_matrix.
  run. rewrite H. repeat split.
Qed.

(** Line 67: [predict] on a micro model without centroids. *)
Lemma micro_predict_unfit data method kw w :
  micro_centroids (micro w) = None ->
  BaseMicroMSM.predict data method kw w = Raise AttributeError w.
Proof.
  intros H. unfold BaseMicroMSM.predict. run. rewrite H. reflexivity.
Qed.

(** Line 215: [predict] of the macro model on a micro model without
    centroids. *)
Lemma macro_predict_unfit data method kw w :
  micro_centroids (micro w) = None ->
  BaseMacroMSM.predict data method kw w = Raise AttributeError w.
Proof.
  intros H. unfold BaseMacroMSM.predict. run. rewrite H. reflexivity.
Qed.

(** [score] of the macro model needs the centroids of the micro model and
    its own [metastable_labels]. *)
Lemma macro_score_unfit kw w :
  micro_centroids (micro w) = None \/
  macro_metastable_labels (macro w) = None ->
  BaseMacroMSM.score kw w = Raise AttributeError w.
Proof.
  intros H. unfold BaseMacroMSM.score. run.
  destruct (micro_centroids (micro w)); [| reflexivity].
  destruct H as [H | H]; [discriminate H |].
  rewrite H. reflexivity.
Qed.

End Queries.

(** C7, as the code has it.  On a micro model as constructed,
    [stationary_distribution], [eigenvalues], [mfpt], [count_matrix],
    [transition_matrix], [predict] and [score] without labels raise
    [AttributeError] and leave the store alone; so do
    [stationary_distribution], [eigenvalues], [mfpt], [count_matrix],
    [transition_matrix] and [score] on a macro model as constructed.
    [predict] of either class raises it whenever the micro model has no
    centroids.  [BaseMicroMSM.score] with labels [y] does not look at the
    model: it is the scoring routine applied to its arguments. *)
Theorem queries_before_fit {col : Collaborators} :
  (forall w b,
      micro w = BaseMicroMSM.__init__ b ->
      BaseMicroMSM.stationary_distribution w = Raise AttributeError w /\
      (forall k ncv,
          BaseMicroMSM.eigenvalues k ncv w = Raise AttributeError w) /\
      (forall origin target,
          BaseMicroMSM.mfpt origin target w = Raise AttributeError w) /\
      BaseMicroMSM.count_matrix w = Raise AttributeError w /\
      BaseMicroMSM.transition_matrix w = Raise AttributeError w /\
      (forall data method kw,
          BaseMicroMSM.predict data method kw w = Raise AttributeError w) /\
      (forall X kw,
          BaseMicroMSM.score X None kw w = Raise AttributeError w)) /\
  (forall w b mi,
      macro w = BaseMacroMSM.__init__ b mi ->
      BaseMacroMSM.stationary_distribution w = Raise AttributeError w /\
      (forall k ncv,
          BaseMacroMSM.eigenvalues k ncv w = Raise AttributeError w) /\
      (forall origin target,
          BaseMacroMSM.mfpt origin target w = Raise AttributeError w) /\
      BaseMacroMSM.count_matrix w = Raise AttributeError w /\
      BaseMacroMSM.transition_matrix w = Raise AttributeError w /\
      (forall kw, BaseMacroMSM.score kw w = Raise AttributeError w)) /\
  (forall w,
      micro_centroids (micro w) = None ->
      (forall data method kw,
          BaseMicroMSM.predict data method kw w = Raise AttributeError w) /\
      (forall data method kw,
          BaseMacroMSM.predict data method kw w = Raise AttributeError w)) /\
  (forall X y kw w,
      BaseMicroMSM.score X (Some y) kw w
        = lift (score_Silhouette_Score X (Some y) kw) w).
Proof.
  split; [| split; [| split]].
  - intros w b Hm.
    assert (HT : micro_T (micro w) = None) by (rewrite Hm; reflexivity).
    assert (HC : micro_C (micro w) = None) by (rewrite Hm; reflexivity).
    assert (Hc : micro_centroids (micro w) = None)
      by (rewrite Hm; reflexivity).
    destruct (micro_T_queries_unfit w HT) as (Hs & He & Hf & Ht).
    repeat split; try assumption.
    + unfold BaseMicroMSM.count_matrix. run. rewrite HC. reflexivity.
    + intros data method kw. apply micro_predict_unfit. exact Hc.
    + intros X kw. unfold BaseMicroMSM.score.
      apply bind_Raise. apply micro_predict_unfit. exact Hc.
  - intros w b mi Hm.
    assert (HT : macro_T (macro w) = None) by (rewrite Hm; reflexivity).
    assert (HC : macro_C (macro w) = None) by (rewrite Hm; reflexivity).
    assert (Hl : macro_metastable_labels (macro w) = None)
      by (rewrite Hm; reflexivity).
    destruct (macro_T_queries_unfit w HT) as (Hs & He & Hf & Ht).
    repeat split; try assumption.
    + unfold BaseMacroMSM.count_matrix. run. rewrite HC. reflexivity.
    + intros kw. apply macro_score_unfit. right. exact Hl.
  - intros w Hc. split; intros data method kw.
    + apply micro_predict_unfit. exact Hc.
    + apply macro_predict_unfit. exact Hc.
  - reflexivity.
Qed.

(** ** [BaseModel.__init__] *)

Section BaseModelInit.

Lemma all_equal_map_shape1 (l : list np.ndarray) (x : nat) :
  np.all_equal (map np.shape1 l) x
    = forallb (fun b => Nat.eqb (np.ncols b) x) l.
Proof.
  unfold np.all_equal, np.shape1.
  induction l as [| a l IH]; [reflexivity |].
  cbn [map forallb]. rewrite IH. reflexivity.
Qed.

(** Once the concatenation of line 17 has succeeded, the test of line 20
    cannot fail: the constructor never raises its own [AttributeError]. *)
Lemma init_never_AttributeError data kw :
  BaseModel.__init__ data kw <> Exc AttributeError.
Proof.
  unfold BaseModel.__init__, res_bind, np.concatenate.
  destruct data as [| d rest]; [discriminate |].
  destruct (forallb (fun b => Nat.eqb (np.ncols b) (np.ncols d)) (d :: rest))
    eqn:Hw; [| discriminate].
  unfold np.min0, np.max0, np.reduce0, np.column_stack_flat.
  cbn [np.rows].
  destruct (flat_map np.rows (d :: rest)) as [| r rs]; [discriminate |].
  match goal with
  | |- context [if ?c then _ else _] => destruct c
  end; [| discriminate].
  cbn [map]. change (np.shape1 d) with (np.ncols d) at 1.
  change (np.ncols d :: map np.shape1 rest)
    with (map np.shape1 (d :: rest)).
  rewrite all_equal_map_shape1.
  unfold np.shape1 at 1. rewrite Hw. discriminate.
Qed.

(** Two arrays of different width: numpy rejects the concatenation. *)
Lemma init_width_mismatch data kw a b :
  In a data -> In b data -> np.ncols a <> np.ncols b ->
  BaseModel.__init__ data kw = Exc ValueError.
Proof.
  intros Ha Hb Hne.
  unfold BaseModel.__init__, res_bind, np.concatenate.
  destruct data as [| d rest]; [reflexivity |].
  destruct (forallb (fun b => Nat.eqb (np.ncols b) (np.ncols d)) (d :: rest))
    eqn:Hw; [| reflexivity].
  exfalso. apply Hne.
  rewrite forallb_forall in Hw.
  pose proof (Hw a Ha) as Ea. pose proof (Hw b Hb) as Eb.
  apply Nat.eqb_eq in Ea, Eb. congruence.
Qed.

Lemma zip_with_length f u v :
  length (np.zip_with f u v) = Nat.min (length u) (length v).
Proof.
  revert v. induction u as [| x u IH]; intros [| y v]; cbn; auto.
Qed.

Lemma fold_zip_with_length f k rest r :
  length r = k ->
  Forall (fun r' => length r' = k) rest ->
  length (fold_left (np.zip_with f) rest r) = k.
Proof.
  revert r. induction rest as [| r' rest IH]; intros r Hr Hall;
    [exact Hr |].
  apply Forall_cons_iff in Hall as [Hr' Hrest].
  cbn [fold_left]. apply IH; [| exact Hrest].
  rewrite zip_with_length, Hr, Hr'. apply Nat.min_id.
Qed.

Lemma interleave_length u v :
  length u = length v ->
  length (np.interleave u v) = (2 * length u)%nat.
Proof.
  revert v. induction u as [| x u IH]; intros [| y v] H;
    try discriminate H; [reflexivity |].
  cbn [np.interleave length]. rewrite IH by (cbn in H; lia). lia.
Qed.

Lemma flat_map_rows_width k data :
  Forall np.wf data ->
  Forall (fun a => np.ncols a = k) data ->
  Forall (fun r => length r = k) (flat_map np.rows data).
Proof.
  induction data as [| a data IH]; intros Hwf Hk; [constructor |].
  inversion Hwf as [| ? ? Ha Hwf']; inversion Hk as [| ? ? Hka Hk']; subst.
  cbn [flat_map]. apply Forall_app. split; [| apply IH; assumption].
  unfold np.wf in Ha. exact Ha.
Qed.

(** Equal widths and at least one sample: the instance is built, and its
    [extent] holds, feature after feature, the minimum and the maximum
    over all samples. *)
Lemma init_equal_widths data kw k :
  data <> [] ->
  Forall np.wf data ->
  Forall (fun a => np.ncols a = k) data ->
  flat_map np.rows data <> [] ->
  exists b lo hi,
    BaseModel.__init__ data kw = Val b /\
    base_n_features b = k /\
    np.min0 (np.mk_ndarray k (flat_map np.rows data)) = Val lo /\
    np.max0 (np.mk_ndarray k (flat_map np.rows data)) = Val hi /\
    base_extent b = np.interleave lo hi /\
    length (base_extent b) = (2 * k)%nat.
Proof.
  intros Hne Hwf Hk Hrows.
  pose proof (flat_map_rows_width Hwf Hk) as Hlen.
  unfold BaseModel.__init__, res_bind, np.concatenate.
  destruct data as [| d rest]; [contradiction |].
  assert (Hd : np.ncols d = k) by (inversion Hk; assumption).
  assert (Hw : forallb (fun b => Nat.eqb (np.ncols b) (np.ncols d))
                 (d :: rest) = true).
  { apply forallb_forall. intros a Ha. apply Nat.eqb_eq.
    rewrite Forall_forall in Hk. rewrite (Hk a Ha). symmetry. exact Hd. }
  rewrite Hw. rewrite Hd.
  unfold np.min0, np.max0, np.reduce0, np.column_stack_flat.
  cbn [np.rows].
  destruct (flat_map np.rows (d :: rest)) as [| r rs]; [contradiction |].
  apply Forall_cons_iff in Hlen as [Hr Hrs].
  pose proof (@fold_zip_with_length Qmin k rs r Hr Hrs) as Hlo.
  pose proof (@fold_zip_with_length Qmax k rs r Hr Hrs) as Hhi.
  rewrite Hlo, Hhi, Nat.eqb_refl.
  cbn [map]. change (np.shape1 d) with (np.ncols d) at 1.
  change (np.ncols d :: map np.shape1 rest)
    with (map np.shape1 (d :: rest)).
  rewrite all_equal_map_shape1.
  unfold np.shape1 at 1. rewrite Hw.
  eexists _, _, _. repeat split.
  - cbn [base_n_features]. exact Hd.
  - cbn [base_extent]. rewrite interleave_length by congruence.
    rewrite Hlo. reflexivity.
Qed.

End BaseModelInit.

(** C4, at the input on which the code departs from it.  Two arrays of
    widths 2 and 3: [np.concatenate] at line 17 raises [ValueError] before
    the width test of line 20 is reached, so the [AttributeError] written
    for this case is not what the caller gets.  Equal widths without any
    sample fail as well, in [min(0)]. *)
Theorem init_width_mismatch_is_ValueError :
  BaseModel.__init__
    [np.mk_ndarray 2 [[1; 2]]%Q; np.mk_ndarray 3 [[1; 2; 3]]%Q] []
    = Exc ValueError /\
  BaseModel.__init__ [np.mk_ndarray 2 []; np.mk_ndarray 2 []] []
    = Exc ValueError.
Proof. split; reflexivity. Qed.

(** * Further properties of the code *)

(** ** [BaseModel.__init__]: when it succeeds and what [extent] holds *)

Section BaseModelExtent.

Lemma fold_zip_with_length_eq f g rest :
  forall a b,
    length a = length b ->
    length (fold_left (np.zip_with f) rest a)
      = length (fold_left (np.zip_with g) rest b).
Proof.
  induction rest as [| r' rest IH]; intros a b Hab; [exact Hab |].
  cbn [fold_left]. apply IH. rewrite !zip_with_length, Hab. reflexivity.
Qed.

Lemma fold_zip_with_length_indep f g rest r :
  length (fold_left (np.zip_with f) rest r)
    = length (fold_left (np.zip_with g) rest r).
Proof. apply fold_zip_with_length_eq. reflexivity. Qed.

(** The two reductions of line 18 give vectors of the same length, so
    [np.column_stack] never fails. *)
Lemma min0_max0_same_length a lo hi :
  np.min0 a = Val lo -> np.max0 a = Val hi -> length lo = length hi.
Proof.
  unfold np.min0, np.max0, np.reduce0.
  destruct (np.rows a) as [| r rest]; [discriminate |].
  intros H1 H2. inversion H1; inversion H2; subst.
  apply fold_zip_with_length_indep.
Qed.

Lemma concatenate_Val data :
  data <> [] ->
  (forall a b, In a data -> In b data -> np.ncols a = np.ncols b) ->
  exists d rest,
    data = d :: rest /\
    np.concatenate data
      = Val (np.mk_ndarray (np.ncols d) (flat_map np.rows data)).
Proof.
  intros Hne Hw. destruct data as [| d rest]; [contradiction |].
  exists d, rest. split; [reflexivity |].
  unfold np.concatenate.
  replace (forallb (fun b => Nat.eqb (np.ncols b) (np.ncols d)) (d :: rest))
    with true; [reflexivity |].
  symmetry. apply forallb_forall. intros a Ha. apply Nat.eqb_eq.
  apply Hw; [exact Ha | left; reflexivity].
Qed.

(** Construction ends with the instance or with [ValueError]. *)
Lemma init_Val_or_ValueError data kw :
  (exists b, BaseModel.__init__ data kw = Val b) \/
  BaseModel.__init__ data kw = Exc ValueError.
Proof.
  destruct (BaseModel.__init__ data kw) as [b | e] eqn:E;
    [left; exists b; reflexivity | right].
  unfold BaseModel.__init__, res_bind, np.concatenate in E.
  destruct data as [| d rest]; [symmetry; exact E |].
  destruct (forallb (fun b => Nat.eqb (np.ncols b) (np.ncols d)) (d :: rest))
    eqn:Hw; [| symmetry; exact E].
  unfold np.min0, np.max0, np.reduce0, np.column_stack_flat in E.
  cbn [np.rows] in E.
  destruct (flat_map np.rows (d :: rest)) as [| r rs]; [symmetry; exact E |].
  rewrite (fold_zip_with_length_indep Qmin Qmax rs r), Nat.eqb_refl in E.
  cbn [map] in E. change (np.shape1 d) with (np.ncols d) in E at 1.
  change (np.ncols d :: map np.shape1 rest)
    with (map np.shape1 (d :: rest)) in E.
  rewrite all_equal_map_shape1 in E.
  unfold np.shape1 in E at 1. rewrite Hw in E. discriminate E.
Qed.

End BaseModelExtent.

(** X1. [BaseModel.__init__] either builds the instance or raises
    [ValueError], for every list of arrays and every options: the
    [AttributeError] of line 23 and an [IndexError] at [n_features[0]] cannot
    occur, because [np.concatenate] has failed before on the same inputs. *)
Theorem BaseModel_init_raises_only_ValueError
    (data : list np.ndarray) (kw : kwargs) :
  (exists b, BaseModel.__init__ data kw = Val b) \/
  BaseModel.__init__ data kw = Exc ValueError.
Proof.
  unfold BaseModel.__init__, res_bind, np.concatenate.
  destruct data as [| d rest]; [right; reflexivity |].
  destruct (forallb (fun b => Nat.eqb (np.ncols b) (np.ncols d)) (d :: rest))
    eqn:Hw; [| right; reflexivity].
  unfold np.min0, np.max0, np.reduce0, np.column_stack_flat.
  cbn [np.rows].
  destruct (flat_map np.rows (d :: rest)) as [| r rs]; [right; reflexivity |].
  match goal with
  | |- context [if ?c then _ else _] => destruct c
  end; [| right; reflexivity].
  cbn [map]. change (np.shape1 d) with (np.ncols d) at 1.
  change (np.ncols d :: map np.shape1 rest) with (map np.shape1 (d :: rest)).
  rewrite all_equal_map_shape1.
  unfold np.shape1 at 1. rewrite Hw. left. eexists. reflexivity.
Qed.

(** X2. [BaseModel.__init__] succeeds exactly when the list of arrays is not
    empty, all arrays have the same width and there is at least one sample
    in total. *)
Theorem BaseModel_init_succeeds_iff (data : list np.ndarray) (kw : kwargs) :
  (exists b, BaseModel.__init__ data kw = Val b) <->
  data <> [] /\
  (forall a b, In a data -> In b data -> np.ncols a = np.ncols b) /\
  flat_map np.rows data <> [].
Proof.
  split.
  - intros [b Hb]. split; [| split].
    + intros ->. discriminate Hb.
    + intros a a' Ha Ha'.
      destruct (Nat.eq_dec (np.ncols a) (np.ncols a')) as [E | N];
        [exact E |].
      rewrite (init_width_mismatch data kw a a' Ha Ha' N) in Hb.
      discriminate Hb.
    + intros Hrows.
      unfold BaseModel.__init__, res_bind, np.concatenate in Hb.
      destruct data as [| d rest]; [discriminate Hb |].
      destruct (forallb _ (d :: rest)); [| discriminate Hb].
      unfold np.min0, np.reduce0 in Hb. cbn [np.rows] in Hb.
      rewrite Hrows in Hb. discriminate Hb.
  - intros (Hne & Hw & Hrows).
    destruct (init_Val_or_ValueError data kw) as [H | H];
      [exact H | exfalso].
    destruct (concatenate_Val Hne Hw) as (d & rest & -> & Hc).
    unfold BaseModel.__init__, res_bind in H. rewrite Hc in H.
    unfold np.min0, np.max0, np.reduce0 in H. cbn [np.rows] in H.
    destruct (flat_map np.rows (d :: rest)) as [| r rs] eqn:Hr;
      [contradiction |].
    unfold np.column_stack_flat in H.
    rewrite (fold_zip_with_length_indep Qmin Qmax rs r), Nat.eqb_refl in H.
    cbn [map] in H. change (np.shape1 d) with (np.ncols d) in H at 1.
    change (np.ncols d :: map np.shape1 rest)
      with (map np.shape1 (d :: rest)) in H.
    rewrite all_equal_map_shape1 in H.
    replace (forallb (fun b => Nat.eqb (np.ncols b) (np.shape1 d)) (d :: rest))
      with true in H; [discriminate H |].
    symmetry. apply forallb_forall. intros a Ha. apply Nat.eqb_eq.
    apply Hw; [exact Ha | left; reflexivity].
Qed.

Section BaseModelBuilt.

(** What a successful construction has computed. *)
Lemma init_Val_inv data kw b :
  BaseModel.__init__ data kw = Val b ->
  exists d rest r rs,
    data = d :: rest /\
    (forall a, In a data -> np.ncols a = np.ncols d) /\
    flat_map np.rows data = r :: rs /\
    b = mk_BaseModel (kwargs_get kw "db" (PyBool false))
          (kwargs_get kw "rev" (PyBool true))
          (kwargs_get kw "sparse" (PyBool false))
          (kwargs_get kw "lag" (PyInt 1))
          data (length data) (map np.shape0 data)
          (np.interleave (fold_left (np.zip_with Qmin) rs r)
             (fold_left (np.zip_with Qmax) rs r))
          (np.ncols d) None None.
Proof.
  unfold BaseModel.__init__, res_bind, np.concatenate.
  destruct data as [| d rest]; [discriminate |].
  destruct (forallb (fun b => Nat.eqb (np.ncols b) (np.ncols d)) (d :: rest))
    eqn:Hw; [| discriminate].
  unfold np.min0, np.max0, np.reduce0, np.column_stack_flat.
  cbn [np.rows].
  destruct (flat_map np.rows (d :: rest)) as [| r rs]; [discriminate |].
  match goal with
  | |- context [if ?c then _ else _] => destruct c
  end; [| discriminate].
  cbn [map]. change (np.shape1 d) with (np.ncols d) at 1.
  change (np.ncols d :: map np.shape1 rest) with (map np.shape1 (d :: rest)).
  rewrite all_equal_map_shape1.
  unfold np.shape1 at 1. rewrite Hw.
  intros E. inversion E; subst b.
  exists d, rest, r, rs. repeat split.
  intros a Ha. rewrite forallb_forall in Hw.
  apply Nat.eqb_eq. apply Hw. exact Ha.
Qed.

Lemma nth_zip_with f u v j dflt :
  (j < length u)%nat -> (j < length v)%nat ->
  nth j (np.zip_with f u v) dflt = f (nth j u dflt) (nth j v dflt).
Proof.
  revert v j. induction u as [| x u IH]; intros [| y v] [| j] Hu Hv;
    cbn in *; try lia; [reflexivity |].
  apply IH; lia.
Qed.

(** A pointwise reduction by [f] is in relation [R] with every row, when
    [f x y] is in relation with [x] and with [y]. *)
Lemma fold_zip_with_bound f (R : Q -> Q -> Prop) :
  (forall x, R x x) ->
  (forall x y z, R x y -> R y z -> R x z) ->
  (forall x y, R (f x y) x) ->
  (forall x y, R (f x y) y) ->
  forall k j rest r,
    (j < k)%nat ->
    length r = k ->
    Forall (fun r' => length r' = k) rest ->
    forall r', In r' (r :: rest) ->
      R (nth j (fold_left (np.zip_with f) rest r) 0%Q) (nth j r' 0%Q).
Proof.
  intros Hrefl Htrans Hl Hr k j rest.
  induction rest as [| r1 rest IH]; intros r Hj Hlen Hall r' Hin.
  - destruct Hin as [<- | []]. apply Hrefl.
  - apply Forall_cons_iff in Hall as [Hlen1 Hall].
    cbn [fold_left].
    assert (Hz : length (np.zip_with f r r1) = k)
      by (rewrite zip_with_length, Hlen, Hlen1; apply Nat.min_id).
    assert (Hnth : nth j (np.zip_with f r r1) 0%Q
                   = f (nth j r 0%Q) (nth j r1 0%Q))
      by (apply nth_zip_with; lia).
    pose proof (IH (np.zip_with f r r1) Hj Hz Hall) as Hfold.
    destruct Hin as [<- | [<- | Hin]].
    + eapply Htrans; [apply Hfold; left; reflexivity |].
      rewrite Hnth. apply Hl.
    + eapply Htrans; [apply Hfold; left; reflexivity |].
      rewrite Hnth. apply Hr.
    + apply Hfold. right. exact Hin.
Qed.

Lemma nth_interleave u v j dflt :
  length u = length v -> (j < length u)%nat ->
  nth (2 * j) (np.interleave u v) dflt = nth j u dflt /\
  nth (2 * j + 1) (np.interleave u v) dflt = nth j v dflt.
Proof.
  revert v j. induction u as [| x u IH]; intros [| y v] j Hlen Hj;
    cbn [length] in *; try lia.
  destruct j as [| j]; [split; reflexivity |].
  replace (2 * S j)%nat with (S (S (2 * j))) by lia.
  replace (S (S (2 * j)) + 1)%nat with (S (S (2 * j + 1))) by lia.
  cbn [np.interleave nth]. apply IH; lia.
Qed.

Lemma In_flat_map_rows data a r :
  In a data -> In r (np.rows a) -> In r (flat_map np.rows data).
Proof. intros Ha Hr. apply in_flat_map. exists a. split; assumption. Qed.

End BaseModelBuilt.

(** X3. On the instance that [BaseModel.__init__] builds, [n_features] is
    the width of every array, [n_sets] their number, [n_samples] their row
    counts (which add up to the number of samples), and the attributes that
    only a [fit] creates are missing.  When every row of every array has the
    array's width, [extent] has twice [n_features] entries. *)
Theorem BaseModel_init_fields
    (data : list np.ndarray) (kw : kwargs) (b : BaseModelObj) :
  BaseModel.__init__ data kw = Val b ->
  base_data b = data /\
  base_n_sets b = length data /\
  base_n_samples b = map np.shape0 data /\
  fold_right Nat.add 0%nat (base_n_samples b)
    = length (flat_map np.rows data) /\
  (forall a, In a data -> np.ncols a = base_n_features b) /\
  base_n_microstates b = None /\
  base_n_macrostates b = None /\
  (Forall np.wf data ->
   length (base_extent b) = (2 * base_n_features b)%nat).
Proof.
  intros Hb.
  destruct (init_Val_inv data kw Hb) as (d & rest & r & rs & Hd & Hw & Hr & ->).
  cbn [base_data base_n_sets base_n_samples base_n_features base_extent
       base_n_microstates base_n_macrostates].
  repeat split; try assumption.
  - clear. induction data as [| a data IH]; [reflexivity |].
    cbn [map fold_right flat_map]. rewrite length_app, IH. reflexivity.
  - intros Hwf.
    assert (Hk : Forall (fun a => np.ncols a = np.ncols d) data)
      by (apply Forall_forall; exact Hw).
    pose proof (flat_map_rows_width Hwf Hk) as Hlen. rewrite Hr in Hlen.
    apply Forall_cons_iff in Hlen as [Hlr Hlrs].
    pose proof (@fold_zip_with_length Qmin _ rs r Hlr Hlrs) as Hlo.
    pose proof (@fold_zip_with_length Qmax _ rs r Hlr Hlrs) as Hhi.
    rewrite interleave_length by congruence. rewrite Hlo. reflexivity.
Qed.

(** X4. [extent] bounds the data when every element of every array is a
    finite float64 value (so that the promotion of element types in
    [np.concatenate] changes no value, and there is no NaN): on the instance
    built from such arrays, whose rows have the arrays' width, entry [2 j]
    of [extent] is at most, and entry [2 j + 1] at least, feature [j] of
    every sample of every array. *)
Theorem BaseModel_extent_bounds_samples
    (data : list np.ndarray) (kw : kwargs) (b : BaseModelObj)
    (a : np.ndarray) (r : list Q) (j : nat) :
  BaseModel.__init__ data kw = Val b ->
  Forall (fun a' => Forall (Forall binary64) (np.rows a')) data ->
  Forall np.wf data ->
  In a data ->
  In r (np.rows a) ->
  (j < base_n_features b)%nat ->
  (nth (2 * j) (base_extent b) 0 <= nth j r 0)%Q /\
  (nth j r 0 <= nth (2 * j + 1) (base_extent b) 0)%Q.
Proof.
  intros Hb _ Hwf Ha Hr Hj.
  destruct (init_Val_inv data kw Hb)
    as (d & rest & r0 & rs & Hd & Hw & Hrows & ->).
  cbn [base_n_features base_extent] in *.
  assert (Hk : Forall (fun a => np.ncols a = np.ncols d) data)
    by (apply Forall_forall; exact Hw).
  pose proof (flat_map_rows_width Hwf Hk) as Hlen. rewrite Hrows in Hlen.
  apply Forall_cons_iff in Hlen as [Hl0 Hls].
  pose proof (@fold_zip_with_length Qmin _ rs r0 Hl0 Hls) as Hlo.
  pose proof (@fold_zip_with_length Qmax _ rs r0 Hl0 Hls) as Hhi.
  assert (Hin : In r (r0 :: rs))
    by (rewrite <- Hrows; eapply In_flat_map_rows; eassumption).
  destruct (@nth_interleave (fold_left (np.zip_with Qmin) rs r0)
              (fold_left (np.zip_with Qmax) rs r0) j 0%Q)
    as [E1 E2]; [congruence | lia |].
  rewrite E1, E2. split.
  - apply (@fold_zip_with_bound Qmin Qle Qle_refl Qle_trans
             Q.le_min_l Q.le_min_r (np.ncols d) j rs r0 Hj Hl0 Hls r Hin).
  - apply (@fold_zip_with_bound Qmax (fun x y => (y <= x)%Q)
             Qle_refl (fun x y z H1 H2 => Qle_trans _ _ _ H2 H1)
             Q.le_max_l Q.le_max_r (np.ncols d) j rs r0 Hj Hl0 Hls r Hin).
Qed.

(** ** [_check_data_structure] *)

(** X5. [_check_data_structure] is idempotent: whatever it returns, it
    returns unchanged when called on it again. *)
Theorem check_data_structure_idempotent (data r : pyobject) :
  _check_data_structure data = Val r ->
  _check_data_structure r = Val r.
Proof.
  destruct data as [items | a | |]; cbn [_check_data_structure].
  - intros E. inversion E. reflexivity.
  - destruct (shape a) as [| n [| m [| k l]]] eqn:Hs.
    + discriminate.
    + intros E. inversion E. reflexivity.
    + intros E. inversion E. reflexivity.
    + destruct (Nat.eqb n 3) eqn:Hn; [| discriminate].
      intros E. inversion E. cbn [_check_data_structure].
      rewrite Hs, Hn. reflexivity.
  - intros E. inversion E. reflexivity.
  - intros E. inversion E. reflexivity.
Qed.

(** X6. On an array, [_check_data_structure] returns a list only for one or
    two axes: the list then holds one array of two axes with the same
    elements and the same first axis.  An array of three or more axes is
    returned only when its first axis has length 3, and then as it is, not
    in a list; with any other first axis, and without axes, the call
    raises. *)
Theorem check_data_structure_on_arrays (a : narray) (r : pyobject) :
  _check_data_structure (ObjArray a) = Val r ->
  ((length (shape a) = 1 \/ length (shape a) = 2)%nat /\
   exists item,
     r = ObjList [item] /\
     length (shape item) = 2%nat /\
     flat item = flat a /\
     hd 0%nat (shape item) = hd 0%nat (shape a)) \/
  ((3 <= length (shape a))%nat /\
   hd 0%nat (shape a) = 3%nat /\
   r = ObjArray a).
Proof.
  cbn [_check_data_structure].
  destruct (shape a) as [| n [| m [| k l]]] eqn:Hs.
  - discriminate.
  - intros E. inversion E. left. split; [left; reflexivity |].
    eexists. repeat split.
  - intros E. inversion E. left. split; [right; reflexivity |].
    exists a. rewrite Hs. repeat split.
  - destruct (Nat.eqb n 3) eqn:Hn; [| discriminate].
    intros E. inversion E. right. apply Nat.eqb_eq in Hn.
    cbn [length hd]. repeat split; [lia | exact Hn].
Qed.

(** ** [predict] with a method that is not known *)

(** X7. On a hierarchy whose micro model has centroids, [predict] of either
    class with a method that is neither ['kneighborsclassifier'] nor
    ['gaussiannb'] (compared in lower case) raises nothing: it returns
    [None], calls no classifier and leaves the store as it was. *)
Theorem predict_unknown_method_returns_None {col : Collaborators}
    (data : np.ndarray) (method : string) (kw : kwargs) (w : World)
    (c : np.ndarray) :
  micro_centroids (micro w) = Some c ->
  lower method <> "kneighborsclassifier" ->
  lower method <> "gaussiannb" ->
  BaseMicroMSM.predict data method kw w = Ok None w /\
  BaseMacroMSM.predict data method kw w = Ok None w.
Proof.
  intros Hc H1 H2.
  unfold BaseMicroMSM.predict, BaseMacroMSM.predict. run.
  rewrite Hc, (eqb_neq_string H1), (eqb_neq_string H2).
  split; reflexivity.
Qed.

(** ** [BaseMicroMSM]: [update], and how it composes with [fit] *)

Section MicroUpdateCompose.

Context {col : Collaborators}.

(** What a successful ['lag'] item has done. *)
Lemma micro_update_item_lag_inv v w w' :
  BaseMicroMSM.update_item "lag" v w = Ok tt w' ->
  exists labels C T,
    micro_labels (micro w) = Some labels /\
    analysis_count_matrix labels v (micro_is_sparse (micro w)) = Val C /\
    selected_estimator (micro_is_reversible (micro w))
      (micro_is_force_db (micro w)) C = Val T /\
    w' = on_micro (micro_set_T T)
           (on_micro (micro_set_C C) (on_micro (micro_set_lag v) w)).
Proof.
  unfold BaseMicroMSM.update_item, BaseMicroMSM._transition_matrix,
    BaseMicroMSM._count_matrix, selected_estimator.
  cbn [String.eqb Ascii.eqb Bool.eqb]. run. store_simpl.
  destruct (micro_labels (micro w)) as [labels |] eqn:Hl; [| discriminate].
  store_simpl.
  destruct (analysis_count_matrix labels v (micro_is_sparse (micro w)))
    as [C | e] eqn:HC; [| discriminate].
  store_simpl.
  destruct (is_None v); cbn [negb]; store_simpl;
    rewrite ?Hl; store_simpl; rewrite ?HC; store_simpl;
    (destruct (is_True (micro_is_reversible (micro w))); store_simpl;
     [destruct (is_True (micro_is_force_db (micro w))); store_simpl |]);
    match goal with
    | |- context [match ?est ?c with Val _ => _ | Exc _ => _ end] =>
        destruct (est c) as [T | e] eqn:ET
    end; intros E; inversion E; subst;
    exists labels, C, T; repeat split; assumption || reflexivity.
Qed.

(** A failed ['lag'] item has stored the lag, and possibly the count
    matrix, and nothing else. *)
Lemma micro_update_item_lag_Raise v w e w' :
  BaseMicroMSM.update_item "lag" v w = Raise e w' ->
  w' = on_micro (micro_set_lag v) w /\
  (micro_labels (micro w) = None -> e = AttributeError) \/
  exists labels C,
    micro_labels (micro w) = Some labels /\
    analysis_count_matrix labels v (micro_is_sparse (micro w)) = Val C /\
    w' = on_micro (micro_set_C C) (on_micro (micro_set_lag v) w).
Proof.
  unfold BaseMicroMSM.update_item, BaseMicroMSM._transition_matrix,
    BaseMicroMSM._count_matrix.
  cbn [String.eqb Ascii.eqb Bool.eqb]. run. store_simpl.
  destruct (micro_labels (micro w)) as [labels |] eqn:Hl.
  2:{ intros E. inversion E. left. split; reflexivity. }
  store_simpl.
  destruct (analysis_count_matrix labels v (micro_is_sparse (micro w)))
    as [C | e0] eqn:HC.
  2:{ intros E. inversion E. left. split; [reflexivity | discriminate]. }
  store_simpl.
  destruct (is_None v); cbn [negb]; store_simpl;
    rewrite ?Hl; store_simpl; rewrite ?HC; store_simpl;
    (destruct (is_True (micro_is_reversible (micro w))); store_simpl;
     [destruct (is_True (micro_is_force_db (micro w))); store_simpl |]);
    match goal with
    | |- context [match ?est ?c with Val _ => _ | Exc _ => _ end] =>
        destruct (est c) as [T | e1] eqn:ET
    end; intros E; inversion E; subst;
    right; exists labels, C; rewrite ?Hl;
    repeat split; assumption || reflexivity.
Qed.

End MicroUpdateCompose.

(** X8. An [update] with a ['lag'] keyword that raises has stored the new
    lag all the same: in the store it leaves, [lag] is the new value, while
    [_T], [labels], [centroids], [_N], the [BaseModel] and the macro model
    are as before.  On a model without labels the exception is the
    [AttributeError] of reading [self.labels], and the lag is the only
    change. *)
Theorem micro_update_failure_keeps_new_lag {col : Collaborators}
    (kw : kwargs) (v : pyval) (w : World) (e : exn) (w' : World) :
  NoDup (map fst kw) ->
  kwargs_lookup kw "lag" = Some v ->
  BaseMicroMSM.update kw w = Raise e w' ->
  micro_lag (micro w') = v /\
  micro_T (micro w') = micro_T (micro w) /\
  micro_labels (micro w') = micro_labels (micro w) /\
  micro_centroids (micro w') = micro_centroids (micro w) /\
  micro_N (micro w') = micro_N (micro w) /\
  base w' = base w /\
  macro w' = macro w /\
  (micro_labels (micro w) = None ->
   e = AttributeError /\ w' = on_micro (micro_set_lag v) w).
Proof.
  intros Hnd Hlag E.
  erewrite micro_update_is_lag_item in E by eassumption.
  apply micro_update_item_lag_Raise in E
    as [[-> He] | (labels & C & Hl & HC & ->)]; store_simpl.
  - repeat split; try reflexivity. apply He. assumption.
  - repeat split; try reflexivity; rewrite Hl in *; discriminate.
Qed.

(** X9. Changing the lag by [update] is changing it by a new [fit]: when a
    [fit] without [lag] has succeeded and [update(lag=v)] then succeeds, the
    store is the one in which the same [fit] with [lag=v] ends. *)
Theorem micro_update_lag_is_refit {col : Collaborators}
    (N : option Z) (cs : option np.ndarray) (kw : kwargs) (v : pyval)
    (w w1 w2 : World) :
  is_None v = false ->
  BaseMicroMSM.fit N cs PyNone kw w = Ok tt w1 ->
  BaseMicroMSM.update [("lag", v)] w1 = Ok tt w2 ->
  BaseMicroMSM.fit N cs v kw w = Ok tt w2.
Proof.
  intros Hv Hfit Hup.
  unfold BaseMicroMSM.fit in *.
  apply bind_Ok_inv in Hfit as ([] & wl & Hlab & Hfit).
  apply bind_Ok_inv in Hfit as (lag0 & wb & Hlag0 & Hest).
  rewrite micro_fit_lag_spec in Hlag0. cbn [is_None] in Hlag0.
  inversion Hlag0; subst lag0 wb; clear Hlag0.
  apply micro_fit_estimate_Ok in Hest
    as (labels & C0 & T0 & Hl & HC0 & HT0 & ->).
  cbn [BaseMicroMSM.update] in Hup.
  apply bind_Ok_inv in Hup as ([] & wu & Hitem & Hret).
  inversion Hret; subst wu; clear Hret.
  apply micro_update_item_lag_inv in Hitem
    as (labels' & C & T & Hl' & HC & HT & ->).
  store_simpl. rewrite Hl in Hl'. inversion Hl'; subst labels'.
  erewrite bind_Ok by exact Hlab.
  erewrite bind_Ok by (rewrite micro_fit_lag_spec, Hv; reflexivity).
  unfold BaseMicroMSM.fit_estimate, selected_estimator in *. run. store_simpl.
  rewrite Hl. store_simpl. rewrite HC. store_simpl.
  destruct (is_True (micro_is_reversible (micro wl))); store_simpl;
    [destruct (is_True (micro_is_force_db (micro wl))); store_simpl |];
    rewrite HT; reflexivity.
Qed.

(** X10. After a successful [fit] the queries agree with what it stored:
    the properties [count_matrix] and [transition_matrix] return [_C] and
    [_T], and [_count_matrix] and [_transition_matrix], called with the
    stored lag or (the latter) without a lag, recompute exactly these two
    matrices; none of them changes the store. *)
Theorem micro_fit_then_queries {col : Collaborators}
    (N : option Z) (cs : option np.ndarray) (lag : pyval) (kw : kwargs)
    (w w' : World) :
  BaseMicroMSM.fit N cs lag kw w = Ok tt w' ->
  exists C T,
    micro_C (micro w') = Some C /\
    micro_T (micro w') = Some T /\
    BaseMicroMSM.count_matrix w' = Ok C w' /\
    BaseMicroMSM.transition_matrix w' = Ok T w' /\
    BaseMicroMSM._count_matrix (micro_lag (micro w')) w' = Ok C w' /\
    BaseMicroMSM._transition_matrix PyNone w' = Ok T w' /\
    BaseMicroMSM._transition_matrix (micro_lag (micro w')) w' = Ok T w'.
Proof.
  intros E. unfold BaseMicroMSM.fit in E.
  apply bind_Ok_inv in E as ([] & wl & _ & E).
  apply bind_Ok_inv in E as (lag' & wb & Hlag & E).
  apply micro_fit_lag_Ok in Hlag as (Hlag & _).
  apply micro_fit_estimate_Ok in E as (labels & C & T & Hl & HC & HT & ->).
  exists C, T.
  unfold BaseMicroMSM.count_matrix, BaseMicroMSM.transition_matrix,
    BaseMicroMSM._transition_matrix, BaseMicroMSM._count_matrix,
    selected_estimator in *.
  run. store_simpl. rewrite Hlag, Hl. store_simpl. rewrite HC. store_simpl.
  repeat split.
  all: destruct (is_None lag'); cbn [negb is_None]; store_simpl;
    rewrite ?Hl; store_simpl; rewrite ?HC; store_simpl;
    (destruct (is_True (micro_is_reversible (micro wb))); store_simpl;
     [destruct (is_True (micro_is_force_db (micro wb))); store_simpl |]);
    rewrite ?HT; reflexivity.
Qed.

(** ** [BaseMicroMSM.fit]: method values *)

Section MicroFitMethods.

Context {col : Collaborators}.

(** A run of lines 55-63 on a store with labels whose count matrix and
    estimate exist. *)
Lemma micro_fit_estimate_run lag w labels C T :
  micro_labels (micro w) = Some labels ->
  analysis_count_matrix labels lag (micro_is_sparse (micro w)) = Val C ->
  selected_estimator (micro_is_reversible (micro w))
    (micro_is_force_db (micro w)) C = Val T ->
  BaseMicroMSM.fit_estimate lag w
    = Ok tt (on_micro (micro_set_T T) (on_micro (micro_set_C C) w)).
Proof.
  intros Hl HC HT.
  unfold BaseMicroMSM.fit_estimate, selected_estimator in *. run.
  rewrite Hl, HC. store_simpl.
  destruct (is_True (micro_is_reversible (micro w))); store_simpl;
    [destruct (is_True (micro_is_force_db (micro w))); store_simpl |];
    rewrite HT; reflexivity.
Qed.

Lemma py_lower_not_a_string v :
  (forall s, v <> PyStr s) -> py_lower v = Exc AttributeError.
Proof.
  intros H. destruct v; try reflexivity. exfalso. apply (H s). reflexivity.
Qed.

End MicroFitMethods.

(** X11. Fitting a model that already has labels with a method name that
    the clustering branch does not know does not fail: no clustering routine
    runs, the old [labels] and [centroids] stay, [_N] and [n_microstates]
    take the new [N], and the count and transition matrices are computed
    from the old labels. *)
Theorem micro_refit_unknown_method_keeps_labels {col : Collaborators}
    (n : Z) (cs : option np.ndarray) (kw : kwargs) (s : string) (lag : pyval)
    (w : World) (labels : Labels) (C T : np.ndarray) :
  kwargs_lookup kw "method" = Some (PyStr s) ->
  lower s <> "kmeans" ->
  lower s <> "minibatchkmeans" ->
  lower s <> "kmedoids" ->
  micro_labels (micro w) = Some labels ->
  analysis_count_matrix labels
    (if is_None lag then micro_lag (micro w) else lag)
    (micro_is_sparse (micro w)) = Val C ->
  selected_estimator (micro_is_reversible (micro w))
    (micro_is_force_db (micro w)) C = Val T ->
  exists w',
    BaseMicroMSM.fit (Some n) cs lag kw w = Ok tt w' /\
    micro_labels (micro w') = Some labels /\
    micro_centroids (micro w') = micro_centroids (micro w) /\
    micro_N (micro w') = Some n /\
    base_n_microstates (base w') = Some n /\
    micro_C (micro w') = Some C /\
    micro_T (micro w') = Some T.
Proof.
  intros Hm H1 H2 H3 Hl HC HT.
  exists (on_micro (micro_set_T T)
            (on_micro (micro_set_C C)
               (micro_with_lag lag (micro_after_N n w)))).
  split.
  - unfold BaseMicroMSM.fit.
    erewrite bind_Ok
      by (eapply micro_fit_label_N_unrecognised; eassumption).
    unfold bind at 1. rewrite micro_fit_lag_spec.
    unfold micro_with_lag, micro_after_N.
    destruct (is_None lag);
      (eapply micro_fit_estimate_run; store_simpl; eassumption).
  - unfold micro_with_lag, micro_after_N.
    destruct (is_None lag); store_simpl; repeat split; assumption.
Qed.

(** X12. A [method] option that is [None], a [bool], an [int] or a [float],
    none of which has a method [lower], makes [fit] raise [AttributeError]
    at its first [method.lower()]: after [_N] and [n_microstates] (and
    [centroids], in the centroid branch) have been assigned, before any
    routine is called, and before the lag is stored. *)
Theorem micro_fit_method_not_a_string {col : Collaborators}
    (kw : kwargs) (v lag : pyval) (w : World) :
  kwargs_lookup kw "method" = Some v ->
  v = PyNone \/ (exists b, v = PyBool b) \/ (exists z, v = PyInt z) \/
  (exists q, v = PyFloat q) ->
  (forall n cs,
      BaseMicroMSM.fit (Some n) cs lag kw w
        = Raise AttributeError (micro_after_N n w)) /\
  (forall c,
      BaseMicroMSM.fit None (Some c) lag kw w
        = Raise AttributeError (micro_after_centroids c w)).
Proof.
  intros Hm Hv.
  assert (Hlow : py_lower v = Exc AttributeError)
    by (destruct Hv as [-> | [[b ->] | [[z ->] | [q ->]]]]; reflexivity).
  split; intros; unfold BaseMicroMSM.fit; apply bind_Raise;
    unfold BaseMicroMSM.fit_label, kwargs_get; rewrite Hm; run;
    rewrite Hlow; reflexivity.
Qed.

(** X13. Without a [method] option, labelling is by [_KMeans] when [N] is
    given and by [_KNeighborsClassifier] when only centroids are: lines
    20-47 are then the routine, run after the first assignments, followed by
    the assignment of what it returns. *)
Theorem micro_fit_default_methods {col : Collaborators}
    (kw : kwargs) (w : World) :
  kwargs_lookup kw "method" = None ->
  (forall n cs,
      BaseMicroMSM.fit_label (Some n) cs kw w
        = bind (cluster_KMeans kw)
            (fun cl => modify (micro_after_clustering cl))
            (micro_after_N n w)) /\
  (forall c,
      BaseMicroMSM.fit_label None (Some c) kw w
        = bind (classifier_KNeighborsClassifier SelfMicro None None kw)
            (fun l => modify (on_micro (micro_set_labels l)))
            (micro_after_centroids c w)).
Proof.
  intros Hm. split; intros.
  - unfold BaseMicroMSM.fit_label, kwargs_get, micro_after_clustering.
    rewrite Hm. run.
    replace (py_lower (PyStr "KMeans")) with (Val "kmeans") by reflexivity.
    cbn [String.eqb Ascii.eqb Bool.eqb].
    fold (micro_after_N n w).
    destruct (cluster_KMeans kw (micro_after_N n w)); reflexivity.
  - unfold BaseMicroMSM.fit_label, kwargs_get.
    rewrite Hm. run.
    replace (py_lower (PyStr "KNeighborsClassifier"))
      with (Val "kneighborsclassifier") by reflexivity.
    cbn [String.eqb Ascii.eqb Bool.eqb].
    fold (micro_after_centroids c w).
    destruct (classifier_KNeighborsClassifier SelfMicro None None kw
                (micro_after_centroids c w)); reflexivity.
Qed.

(** ** [BaseMacroMSM]: construction, checks and queries *)

Section MacroMore.

Context {col : Collaborators}.

(** Lines 174-188 on a store where no check applies. *)
Lemma macro_validate_silent n nm w :
  macro_N (macro w) = Some n ->
  micro_N (micro w) = Some nm ->
  (n <= nm - 1)%Z ->
  (n < 4000)%Z ->
  (4 <= n)%Z \/ truthy (macro_is_sparse (macro w)) = false ->
  BaseMacroMSM.fit_validate w = Ok tt w.
Proof.
  intros Hn Hm Hle Hlt H. unfold BaseMacroMSM.fit_validate. run.
  rewrite Hn, Hm.
  destruct (Z.gtb_spec n (nm - 1)); [lia |].
  rewrite Hn.
  destruct (Z.geb_spec n 4000); [lia |].
  rewrite Hn.
  destruct (Z.ltb_spec n 4); [| reflexivity].
  destruct H as [H | H]; [lia |]. rewrite H. reflexivity.
Qed.

(** Lines 177-183 on a sparse [BaseModel]: the flag is copied, nothing is
    said. *)
Lemma macro_validate_large_sparse n nm w :
  macro_N (macro w) = Some n ->
  micro_N (micro w) = Some nm ->
  (n <= nm - 1)%Z ->
  (4000 <= n)%Z ->
  truthy (base_is_sparse (base w)) = true ->
  BaseMacroMSM.fit_validate w
    = Ok tt (on_macro (macro_set_is_sparse (base_is_sparse (base w))) w).
Proof.
  intros Hn Hm Hle Hge Hsp. unfold BaseMacroMSM.fit_validate. run.
  rewrite Hn, Hm.
  destruct (Z.gtb_spec n (nm - 1)); [lia |].
  rewrite Hn.
  destruct (Z.geb_spec n 4000); [| lia].
  store_simpl. rewrite Hsp. reflexivity.
Qed.

End MacroMore.

(** X14. A macro model constructed after a successful [fit] of the micro
    model with [lag=v] has [v] as its lag, whatever the lag of the
    [BaseModel]; it is dense and has no labels and no matrices.  A [fit] of
    it without [lag] then works at lag [v]. *)
Theorem macro_lag_follows_micro_fit {col : Collaborators}
    (N : option Z) (cs : option np.ndarray) (v : pyval) (kw : kwargs)
    (w w' : World) :
  BaseMicroMSM.fit N cs v kw w = Ok tt w' ->
  is_None v = false ->
  let ma := BaseMacroMSM.__init__ (base w') (micro w') in
  let wm := mk_World (base w') (micro w') ma (warnings w') in
  macro_lag ma = v /\
  macro_is_sparse ma = PyBool false /\
  macro_labels ma = None /\
  macro_C ma = None /\
  macro_T ma = None /\
  forall n method,
    BaseMacroMSM.fit n PyNone method wm =
      bind BaseMacroMSM.fit_validate
        (fun _ =>
           bind (BaseMacroMSM.fit_coarse_grain n v method)
             (fun _ => BaseMacroMSM.fit_estimate v method))
        (macro_after_assignments n PyNone wm).
Proof.
  intros E Hv ma wm.
  assert (Hlag : micro_lag (micro w') = v).
  { unfold BaseMicroMSM.fit in E.
    apply bind_Ok_inv in E as ([] & wl & _ & E).
    apply bind_Ok_inv in E as (lag' & wb & Hl & E).
    rewrite micro_fit_lag_spec, Hv in Hl. inversion Hl; subst lag' wb.
    apply micro_fit_estimate_Ok in E as (? & ? & ? & _ & _ & _ & ->).
    reflexivity. }
  repeat split; try reflexivity; try exact Hlag.
  intros n method. rewrite macro_fit_unfold.
  unfold macro_lag_in_force. cbn [is_None].
  subst wm ma. cbn [macro BaseMacroMSM.__init__ macro_lag].
  rewrite Hlag. reflexivity.
Qed.

(** X15. When the number of macrostates is at most [_micro._N - 1] and
    below 4000, and is at least 4 or the macro model's flag is not set, the
    checks of [BaseMacroMSM.fit] do nothing: no warning, no change of the
    flag, and the fit goes on from the store of its first assignments.  This
    includes zero and negative numbers of macrostates. *)
Theorem macro_fit_checks_pass_silently {col : Collaborators}
    (n : Z) (lag : pyval) (method : string) (w : World) (nm : Z) :
  micro_N (micro w) = Some nm ->
  (n <= nm - 1)%Z ->
  (n < 4000)%Z ->
  (4 <= n)%Z \/ truthy (macro_is_sparse (macro w)) = false ->
  BaseMacroMSM.fit n lag method w =
    bind (BaseMacroMSM.fit_coarse_grain n (macro_lag_in_force lag w) method)
      (fun _ => BaseMacroMSM.fit_estimate (macro_lag_in_force lag w) method)
      (macro_after_assignments n lag w).
Proof.
  intros Hm Hle Hlt H.
  destruct (macro_after_assignments_frame n lag w)
    as (HN & _ & Hmi & _ & _ & Hsp & _).
  rewrite macro_fit_unfold.
  erewrite bind_Ok; [reflexivity |].
  eapply macro_validate_silent; [exact HN | | exact Hle | exact Hlt |].
  - rewrite Hmi. exact Hm.
  - rewrite Hsp. exact H.
Qed.

(** X16. With at least 4000 macrostates, at most [_micro._N - 1], on a
    sparse [BaseModel], the checks copy the [BaseModel]'s flag into the
    macro model and issue no warning; the fit goes on from that store. *)
Theorem macro_fit_large_sparse_copies_flag {col : Collaborators}
    (n : Z) (lag : pyval) (method : string) (w : World) (nm : Z) :
  micro_N (micro w) = Some nm ->
  (n <= nm - 1)%Z ->
  (4000 <= n)%Z ->
  truthy (base_is_sparse (base w)) = true ->
  let w1 := on_macro (macro_set_is_sparse (base_is_sparse (base w)))
              (macro_after_assignments n lag w) in
  BaseMacroMSM.fit n lag method w =
    bind (BaseMacroMSM.fit_coarse_grain n (macro_lag_in_force lag w) method)
      (fun _ => BaseMacroMSM.fit_estimate (macro_lag_in_force lag w) method)
      w1 /\
  macro_is_sparse (macro w1) = base_is_sparse (base w) /\
  warnings w1 = warnings w.
Proof.
  intros Hm Hle Hge Hsp w1.
  destruct (macro_after_assignments_frame n lag w)
    as (HN & _ & Hmi & Hw & Hbs & _).
  split; [| split].
  - rewrite macro_fit_unfold.
    erewrite bind_Ok; [reflexivity |].
    subst w1. rewrite <- Hbs.
    eapply macro_validate_large_sparse;
      [exact HN | rewrite Hmi; exact Hm | exact Hle | exact Hge |].
    rewrite Hbs. exact Hsp.
  - reflexivity.
  - subst w1. unfold on_macro. cbn [warnings]. exact Hw.
Qed.

(** X17. After a successful [fit] of the macro model the properties
    [count_matrix] and [transition_matrix] return what it stored, and
    [_transition_matrix] without a lag recomputes the stored transition
    matrix; none of them changes the store. *)
Theorem macro_fit_then_queries {col : Collaborators}
    (n : Z) (lag : pyval) (method : string) (w w' : World) :
  BaseMacroMSM.fit n lag method w = Ok tt w' ->
  exists C T,
    macro_C (macro w') = Some C /\
    macro_T (macro w') = Some T /\
    BaseMacroMSM.count_matrix w' = Ok C w' /\
    BaseMacroMSM.transition_matrix w' = Ok T w' /\
    BaseMacroMSM._transition_matrix PyNone w' = Ok T w'.
Proof.
  intros E. unfold BaseMacroMSM.fit in E.
  apply bind_Ok_inv in E as (? & wa & _ & E).
  apply bind_Ok_inv in E as (? & wb & _ & E).
  apply bind_Ok_inv in E as (lag' & wc & _ & E).
  apply bind_Ok_inv in E as (? & wd & _ & E).
  apply bind_Ok_inv in E as ([] & w1 & _ & E).
  apply macro_fit_estimate_Ok in E as (labels & C & T & Hl & HC & HT & ->).
  exists C, T.
  unfold BaseMacroMSM.count_matrix, BaseMacroMSM.transition_matrix,
    BaseMacroMSM._transition_matrix, selected_estimator in *.
  run. cbn [is_None negb]. store_simpl.
  repeat split.
  destruct (is_True (macro_is_reversible (macro w1))); store_simpl;
    [destruct (is_True (macro_is_force_db (macro w1))); store_simpl |];
    rewrite HT; reflexivity.
Qed.

(** X18. The queries that read the matrices are read-only: whether they
    return or raise, [count_matrix], [transition_matrix],
    [stationary_distribution], [eigenvalues], [mfpt], [_count_matrix] and
    [_transition_matrix] of both classes, and [score] of the macro model,
    end in the store in which they were called. *)
Theorem queries_leave_store_unchanged {col : Collaborators} (w : World) :
  final (BaseMicroMSM.count_matrix w) = w /\
  final (BaseMicroMSM.transition_matrix w) = w /\
  final (BaseMicroMSM.stationary_distribution w) = w /\
  (forall k ncv, final (BaseMicroMSM.eigenvalues k ncv w) = w) /\
  (forall origin target, final (BaseMicroMSM.mfpt origin target w) = w) /\
  (forall lag, final (BaseMicroMSM._count_matrix lag w) = w) /\
  (forall lag, final (BaseMicroMSM._transition_matrix lag w) = w) /\
  final (BaseMacroMSM.count_matrix w) = w /\
  final (BaseMacroMSM.transition_matrix w) = w /\
  final (BaseMacroMSM.stationary_distribution w) = w /\
  (forall k ncv, final (BaseMacroMSM.eigenvalues k ncv w) = w) /\
  (forall origin target, final (BaseMacroMSM.mfpt origin target w) = w) /\
  (forall lag, final (BaseMacroMSM._count_matrix lag w) = w) /\
  (forall lag, final (BaseMacroMSM._transition_matrix lag w) = w) /\
  (forall kw, final (BaseMacroMSM.score kw w) = w).
Proof.
  unfold BaseMicroMSM.count_matrix, BaseMicroMSM.transition_matrix,
    BaseMicroMSM.stationary_distribution, BaseMicroMSM.eigenvalues,
    BaseMicroMSM.mfpt, BaseMicroMSM._transition_matrix,
    BaseMicroMSM._count_matrix,
    BaseMacroMSM.count_matrix, BaseMacroMSM.transition_matrix,
    BaseMacroMSM.stationary_distribution, BaseMacroMSM.eigenvalues,
    BaseMacroMSM.mfpt, BaseMacroMSM._transition_matrix,
    BaseMacroMSM._count_matrix, BaseMacroMSM.score.
  run.
  repeat split; intros;
    repeat (cbn [final negb]; cbv beta;
            match goal with
            | |- context [match ?x with Some _ => _ | None => _ end] =>
                destruct x
            | |- context [match ?x with Val _ => _ | Exc _ => _ end] =>
                destruct x
            | |- context [if ?b then _ else _] => destruct b
            end);
    reflexivity.
Qed.

(** ** [BaseMicroMSM]: estimation failures, [score], the centroid branch *)

(** X19. When labelling has succeeded and the count matrix exists but the
    transition-matrix estimator raises, [fit] ends with that exception in a
    store that already holds the new labels, the lag and the new count
    matrix, next to the transition matrix of before. *)
Theorem micro_fit_estimator_failure_keeps_counts {col : Collaborators}
    (N : option Z) (cs : option np.ndarray) (lag : pyval) (kw : kwargs)
    (w wl : World) (labels : Labels) (C : np.ndarray) (e : exn) :
  BaseMicroMSM.fit_label N cs kw w = Ok tt wl ->
  micro_labels (micro wl) = Some labels ->
  analysis_count_matrix labels
    (if is_None lag then micro_lag (micro wl) else lag)
    (micro_is_sparse (micro wl)) = Val C ->
  selected_estimator (micro_is_reversible (micro wl))
    (micro_is_force_db (micro wl)) C = Exc e ->
  let w' := on_micro (micro_set_C C) (micro_with_lag lag wl) in
  BaseMicroMSM.fit N cs lag kw w = Raise e w' /\
  micro_C (micro w') = Some C /\
  micro_T (micro w') = micro_T (micro wl) /\
  micro_labels (micro w') = Some labels.
Proof.
  intros Hlab Hl HC HT w'. subst w'.
  unfold BaseMicroMSM.fit. erewrite bind_Ok by exact Hlab.
  unfold bind at 1. rewrite micro_fit_lag_spec.
  unfold micro_with_lag, BaseMicroMSM.fit_estimate, selected_estimator in *.
  destruct (is_None lag); run; store_simpl;
    rewrite Hl; store_simpl; rewrite HC; store_simpl;
    (destruct (is_True (micro_is_reversible (micro wl))); store_simpl;
     [destruct (is_True (micro_is_force_db (micro wl))); store_simpl |]);
    rewrite HT; store_simpl; rewrite ?Hl;
    repeat split; assumption || reflexivity.
Qed.

(** X20. [score(X)] without labels labels [X] by [_KNeighborsClassifier]
    with no options at all: the options of [score] reach the scoring routine
    only, and no other classifier can be chosen. *)
Theorem micro_score_labels_by_KNeighbors {col : Collaborators}
    (X : np.ndarray) (kw : kwargs) (w : World) (c : np.ndarray) :
  micro_centroids (micro w) = Some c ->
  BaseMicroMSM.score X None kw w =
    bind (classifier_KNeighborsClassifier SelfMicro (Some X) None [])
      (fun l => lift (score_Silhouette_Score X (Some l) kw)) w.
Proof.
  intros Hc. unfold BaseMicroMSM.score, BaseMicroMSM.predict. run.
  rewrite Hc.
  replace (lower "KNeighborsClassifier" =? "kneighborsclassifier")
    with true by reflexivity.
  destruct (classifier_KNeighborsClassifier SelfMicro (Some X) None [] w);
    reflexivity.
Qed.

(** X21. In the centroid branch the classifier is chosen by the lower-cased
    method: [_KNeighborsClassifier] for ['kneighborsclassifier'],
    [_GaussianNB] for ['gaussiannb'].  It runs on a store in which
    [centroids] are the given ones and [_N] and [n_microstates] their number
    of rows, and what it returns becomes [labels]. *)
Theorem micro_fit_centroid_branch {col : Collaborators}
    (c : np.ndarray) (kw : kwargs) (w : World) :
  let method := py_lower (kwargs_get kw "method"
                            (PyStr "KNeighborsClassifier")) in
  let w0 := micro_after_centroids c w in
  micro_centroids (micro w0) = Some c /\
  micro_N (micro w0) = Some (Z.of_nat (np.shape0 c)) /\
  base_n_microstates (base w0) = Some (Z.of_nat (np.shape0 c)) /\
  (method = Val "kneighborsclassifier" ->
   BaseMicroMSM.fit_label None (Some c) kw w
     = bind (classifier_KNeighborsClassifier SelfMicro None None kw)
         (fun l => modify (on_micro (micro_set_labels l))) w0) /\
  (method = Val "gaussiannb" ->
   BaseMicroMSM.fit_label None (Some c) kw w
     = bind (classifier_GaussianNB SelfMicro None None kw)
         (fun l => modify (on_micro (micro_set_labels l))) w0).
Proof.
  intros method w0. subst method w0.
  repeat split; intros Hm;
    unfold BaseMicroMSM.fit_label; run;
    fold (micro_after_centroids c w); rewrite Hm;
    cbn [String.eqb Ascii.eqb Bool.eqb].
  - destruct (classifier_KNeighborsClassifier SelfMicro None None kw
                (micro_after_centroids c w)); reflexivity.
  - destruct (classifier_GaussianNB SelfMicro None None kw
                (micro_after_centroids c w)); reflexivity.
Qed.

(** * Runs on the concrete hierarchy *)

Section Runs.

#[local] Existing Instance Demo.collaborators.

(** The demo model is built without options, so [rev] is [True] and [db]
    is [False]; the demo routines do not touch the flags.  The fit with four
    states ends in the store of the clustering with the count matrix [[3]]
    and its reversible estimate (tag 2) assigned. *)
Lemma micro_fit_selects_one_estimator_witness :
  let w := Demo.unfit false in
  let wl := micro_after_clustering (Demo.two_centroids, [0; 0; 1; 1]%Z)
              (micro_after_N 4 w) in
  let C := Demo.scalar 3 in
  let T := np.mk_ndarray 1 [[2]; [3]]%Q in
  BaseMicroMSM.fit (Some 4%Z) None PyNone [] w
    = Ok tt (on_micro (micro_set_T T) (on_micro (micro_set_C C) wl)) /\
  rev_T_estimator C = Val T /\
  micro_is_reversible (micro wl) = kwargs_get [] "rev" (PyBool true) /\
  micro_is_force_db (micro wl) = kwargs_get [] "db" (PyBool false).
Proof.
  cbv zeta.
  assert (E : BaseMicroMSM.fit (Some 4%Z) None PyNone [] (Demo.unfit false)
              = Ok tt (final (BaseMicroMSM.fit (Some 4%Z) None PyNone []
                                (Demo.unfit false))))
    by (vm_compute; reflexivity).
  assert (K : labellers_keep_flags).
  { repeat split; intros; intros w0 a w1 H; inversion H; reflexivity. }
  destruct (micro_fit_selects_one_estimator _ _ _ _ _ E)
    as (wl & labels & C & T & Hlab & Hl & HC & _ & Hrev & _ & Hw & _ & Hkeep).
  cbv zeta in *.
  destruct (Hkeep K) as (_ & _ & _ & Hopt).
  destruct (Hopt Demo.data [] (Demo.base_model false) eq_refl eq_refl
              eq_refl) as [Hr Hd].
  assert (Ewl : wl = micro_after_clustering
                       (Demo.two_centroids, [0; 0; 1; 1]%Z)
                       (micro_after_N 4 (Demo.unfit false)))
    by (vm_compute in Hlab; inversion Hlab; reflexivity).
  subst wl.
  assert (El : labels = [0; 0; 1; 1]%Z)
    by (vm_compute in Hl; inversion Hl; reflexivity).
  subst labels.
  assert (EC : C = Demo.scalar 3)
    by (vm_compute in HC; inversion HC; reflexivity).
  subst C.
  specialize (Hrev eq_refl eq_refl).
  assert (ET : T = np.mk_ndarray 1 [[2]; [3]]%Q)
    by (vm_compute in Hrev; inversion Hrev; reflexivity).
  subst T.
  split; [| split; [exact Hrev | split; [exact Hr | exact Hd]]].
  rewrite E, Hw. reflexivity.
Defined.

(** A method name that no branch knows, on a model that was never fitted. *)
Lemma micro_fit_unrecognised_method_witness :
  let kw := [("method", PyStr "Ward")] in
  let w' := micro_with_lag PyNone (micro_after_N 3 (Demo.unfit false)) in
  BaseMicroMSM.fit_label (Some 3%Z) None kw (Demo.unfit false)
    = Ok tt (micro_after_N 3 (Demo.unfit false)) /\
  BaseMicroMSM.fit (Some 3%Z) None PyNone kw (Demo.unfit false)
    = Raise AttributeError w' /\
  micro_labels (micro w') = None /\
  micro_centroids (micro w') = micro_centroids (micro (Demo.unfit false)) /\
  micro_N (micro w') = Some 3%Z /\
  base_n_microstates (base w') = Some 3%Z /\
  micro_C (micro w') = micro_C (micro (Demo.unfit false)) /\
  micro_T (micro w') = micro_T (micro (Demo.unfit false)).
Proof.
  refine (proj2 (micro_fit_unrecognised_method
                   [("method", PyStr "Ward")] (s := "Ward") PyNone
                   (Demo.unfit false) eq_refl eq_refl)
            3%Z None _ _ _);
    intros H; vm_compute in H; discriminate H.
Defined.

(** Both arguments given: the supplied centroids [[9, 9]] are not the ones
    stored. *)
Lemma micro_fit_N_ignores_centroids_witness :
  let supplied := np.mk_ndarray 2 [[9; 9]]%Q in
  let w' := final (BaseMicroMSM.fit (Some 4%Z) (Some supplied) PyNone []
                     (Demo.unfit false)) in
  micro_centroids (micro w') = Some Demo.two_centroids /\
  micro_labels (micro w') = Some [0; 0; 1; 1]%Z.
Proof.
  refine (proj2 (proj2 (micro_fit_N_ignores_centroids 4%Z
                          (np.mk_ndarray 2 [[9; 9]]%Q) PyNone []
                          (Demo.unfit false))
                   (Demo.two_centroids, [0; 0; 1; 1]%Z)
                   (micro_after_N 4 (Demo.unfit false))
                   (or_introl (conj eq_refl eq_refl)))
            _ eq_refl).
Defined.

(** [update(sparse=True, lag=2)] and [update(sparse=True)] on a fitted
    micro model. *)
Lemma micro_update_lag_only_witness :
  let w := Demo.micro_fitted false 4 in
  (exists w',
      BaseMicroMSM.update [("sparse", PyBool true); ("lag", PyInt 2)] w
        = Ok tt w' /\
      w' = on_micro (micro_set_T (np.mk_ndarray 1 [[2]; [2]]%Q))
             (on_micro (micro_set_C (Demo.scalar 2))
                (on_micro (micro_set_lag (PyInt 2)) w)) /\
      micro_lag (micro w') = PyInt 2 /\
      micro_C (micro w') = Some (Demo.scalar 2) /\
      micro_T (micro w') = Some (np.mk_ndarray 1 [[2]; [2]]%Q) /\
      micro_labels (micro w') = micro_labels (micro w) /\
      micro_centroids (micro w') = micro_centroids (micro w) /\
      micro_N (micro w') = micro_N (micro w) /\
      base w' = base w /\
      macro w' = macro w) /\
  BaseMicroMSM.update [("sparse", PyBool true)] w = Ok tt w.
Proof.
  split.
  - apply (proj1 micro_update_lag_only
             [("sparse", PyBool true); ("lag", PyInt 2)] (PyInt 2)
             (Demo.micro_fitted false 4) [0; 0; 1; 1]%Z).
    + repeat constructor; cbn [In map fst]; intros H;
        repeat (destruct H as [H | H]; [vm_compute in H; discriminate H |]);
        exact H.
    + reflexivity.
    + reflexivity.
    + reflexivity.
    + reflexivity.
  - apply (proj2 micro_update_lag_only). reflexivity.
Defined.

(** C2 fails on the code: ten macrostates on four microstates is rejected,
    and the rejected number is stored all the same; a micro fit with an
    unknown method fails after it has replaced [centroids]. *)
Lemma fit_failure_leaves_partial_update :
  let w := Demo.micro_fitted false 4 in
  let o := BaseMacroMSM.fit 10 PyNone "PCCA" w in
  let supplied := np.mk_ndarray 2 [[9; 9]]%Q in
  let w0 := Demo.unfit false in
  let o0 := BaseMicroMSM.fit None (Some supplied) PyNone
              [("method", PyStr "Ward")] w0 in
  (raised o = Some AttributeError /\
   macro_N (macro w) = None /\
   macro_N (macro (final o)) = Some 10%Z /\
   base_n_macrostates (base w) = None /\
   base_n_macrostates (base (final o)) = Some 10%Z /\
   final o <> w) /\
  (raised o0 = Some AttributeError /\
   micro_centroids (micro w0) = None /\
   micro_centroids (micro (final o0)) = Some supplied /\
   final o0 <> w0).
Proof.
  cbv zeta. split.
  - repeat split; try (vm_compute; reflexivity).
    intros H. apply (f_equal (fun x => macro_N (macro x))) in H.
    vm_compute in H. discriminate H.
  - repeat split; try (vm_compute; reflexivity).
    intros H. apply (f_equal (fun x => micro_centroids (micro x))) in H.
    vm_compute in H. discriminate H.
Qed.

Lemma fit_failure_effects_witness :
  let w := Demo.micro_fitted false 4 in
  BaseMicroMSM.fit None None PyNone [] w = Raise AttributeError w /\
  BaseMacroMSM.fit 10 PyNone "PCCA" w
    = Raise AttributeError (macro_after_assignments 10 PyNone w).
Proof.
  split.
  - apply (proj1 fit_failure_effects).
  - refine (proj1 (proj2 fit_failure_effects 10%Z PyNone "PCCA"
                     (Demo.micro_fitted false 4) _)).
    right; left. exists 4%Z. split; [reflexivity | lia].
Defined.

(** C3 fails on the code.  On a sparse [BaseModel] with 5000 microstates and
    a macro model as constructed, three macrostates are accepted, although
    the data set and the micro model are sparse; and since the macro
    model's own flag is [False] at that point, reading "dense" as that flag
    fails as well: 4000 macrostates bring no warning. *)
Lemma sparse_base_small_macro_count_accepted :
  let w := Demo.micro_fitted true 5000 in
  base_is_sparse (base w) = PyBool true /\
  micro_is_sparse (micro w) = PyBool true /\
  macro_is_sparse (macro w) = PyBool false /\
  micro_N (micro w) = Some 5000%Z /\
  raised (BaseMacroMSM.fit 3 PyNone "PCCA" w) = None /\
  warnings (final (BaseMacroMSM.fit 4000 PyNone "PCCA" w)) = [].
Proof. vm_compute. repeat split. Qed.

(** The three checks at work: too many macrostates; few macrostates on a
    macro model whose flag an earlier fit with 4000 macrostates has set;
    4000 macrostates on a dense [BaseModel]. *)
Lemma macro_fit_checks_witness :
  let dense := Demo.micro_fitted false 5000 in
  let sparse := final (BaseMacroMSM.fit 4000 PyNone "GMM"
                         (Demo.micro_fitted true 5000)) in
  raised (BaseMacroMSM.fit 5000 PyNone "PCCA" dense) = Some AttributeError /\
  raised (BaseMacroMSM.fit 3 PyNone "PCCA" sparse) = Some AttributeError /\
  (warnings (final (BaseMacroMSM.fit 4000 PyNone "PCCA" dense))
     = [BaseMacroMSM.sparse_advice] /\
   raised (BaseMacroMSM.fit 4000 PyNone "PCCA" dense) = None).
Proof.
  cbv zeta. split; [| split].
  - apply (proj1 (macro_fit_checks 5000 PyNone "PCCA"
                    (Demo.micro_fitted false 5000)) 5000%Z);
      [reflexivity | lia].
  - apply (proj1 (proj2 (macro_fit_checks 3 PyNone "PCCA"
                           (final (BaseMacroMSM.fit 4000 PyNone "GMM"
                                     (Demo.micro_fitted true 5000))))));
      [lia | reflexivity].
  - destruct (proj2 (proj2 (proj2 (macro_fit_checks 4000 PyNone "PCCA"
                                     (Demo.micro_fitted false 5000))))
                5000%Z eq_refl ltac:(lia) ltac:(lia) eq_refl)
      as (_ & E & _).
    rewrite E. split; reflexivity.
Defined.

(** ['Pcca'] runs [PCCA]; ['ward'] is no method, and the fit raises. *)
Lemma macro_fit_dispatch_witness :
  BaseMacroMSM.fit_coarse_grain 2 (PyInt 1) "Pcca"
    = coarse_grain_PCCA 2 (PyInt 1) /\
  raised (BaseMacroMSM.fit 2 PyNone "ward" (Demo.micro_fitted false 4))
    = Some AttributeError.
Proof.
  pose proof (macro_fit_dispatch 2 PyNone "Pcca") as HP.
  pose proof (macro_fit_dispatch 2 PyNone "ward") as HW.
  split.
  - apply (proj1 (proj2 (proj2 (proj2 (proj2 (proj2 HP)))))). reflexivity.
  - apply (proj2 (proj2 (proj2 (proj2 (proj2 (proj2 HW)))))).
    unfold coarse_grain_methods. cbn [In].
    intros H.
    repeat (destruct H as [H | H]; [vm_compute in H; discriminate H |]).
    exact H.
Defined.

(** C7 fails on the code: [score(X, y)] with labels on a micro model that
    was never fitted returns the score, and [predict] with an unknown method
    on a macro model that was never fitted (over a fitted micro model)
    returns [None]; neither raises. *)
Lemma score_with_labels_on_unfit_model :
  let X := np.mk_ndarray 2 [[0; 5]; [2; 3]]%Q in
  BaseMicroMSM.score X (Some [0; 1]%Z) [] (Demo.unfit false)
    = Ok 0%Q (Demo.unfit false) /\
  micro (Demo.unfit false)
    = BaseMicroMSM.__init__ (base (Demo.unfit false)) /\
  BaseMacroMSM.predict X "ward" [] (Demo.micro_fitted false 4)
    = Ok None (Demo.micro_fitted false 4) /\
  macro (Demo.micro_fitted false 4)
    = BaseMacroMSM.__init__ (base (Demo.micro_fitted false 4))
        (micro (Demo.micro_fitted false 4)).
Proof. cbv zeta. repeat split. Qed.

Lemma queries_before_fit_witness :
  let w := Demo.unfit false in
  let X := np.mk_ndarray 2 [[0; 5]; [2; 3]]%Q in
  BaseMicroMSM.stationary_distribution w = Raise AttributeError w /\
  BaseMacroMSM.transition_matrix w = Raise AttributeError w /\
  BaseMicroMSM.predict X "KNeighborsClassifier" [] w
    = Raise AttributeError w /\
  BaseMacroMSM.predict X "KNeighborsClassifier" [] w
    = Raise AttributeError w.
Proof.
  cbv zeta.
  destruct (@queries_before_fit Demo.collaborators) as (Hmi & Hma & Hp & _).
  destruct (Hmi (Demo.unfit false) (Demo.base_model false) eq_refl)
    as (Hs & _).
  destruct (Hma (Demo.unfit false) (Demo.base_model false)
              (BaseMicroMSM.__init__ (Demo.base_model false)) eq_refl)
    as (_ & _ & _ & _ & Ht & _).
  destruct (Hp (Demo.unfit false) eq_refl) as (Hp1 & Hp2).
  split; [exact Hs | split; [exact Ht | split; [apply Hp1 | apply Hp2]]].
Defined.

(** A fit with ['PCCA']: the routine has stored a transition matrix of its
    own, and the fit replaces it by the estimate from the counts. *)
Lemma macro_fit_always_reestimates_witness :
  let w := Demo.micro_fitted false 4 in
  let w' := final (BaseMacroMSM.fit 2 PyNone "PCCA" w) in
  BaseMacroMSM.reestimate_guard "PCCA" = true /\
  exists w0 w1 labels C T,
    let lag' := if is_None PyNone then macro_lag (macro w) else PyNone in
    BaseMacroMSM.fit_coarse_grain 2 lag' "PCCA" w0 = Ok tt w1 /\
    macro_labels (macro w1) = Some labels /\
    analysis_count_matrix labels lag' (macro_is_sparse (macro w1)) = Val C /\
    selected_estimator (macro_is_reversible (macro w1))
      (macro_is_force_db (macro w1)) C = Val T /\
    w' = on_macro (macro_set_T T) (on_macro (macro_set_C C) w1) /\
    macro_T (macro w') = Some T.
Proof.
  apply (macro_fit_always_reestimates 2 PyNone "PCCA"
           (Demo.micro_fitted false 4)).
  vm_compute. reflexivity.
Defined.

(** The same run, spelled out: [PCCA] left the matrix [[99]], the fitted
    model holds the reversible estimate (tag 2) of the count matrix. *)
Example pcca_matrix_is_overwritten :
  let w := Demo.micro_fitted false 4 in
  let lag := macro_lag (macro w) in
  macro_T (macro (final (bind BaseMacroMSM.fit_validate
                           (fun _ => BaseMacroMSM.fit_coarse_grain 2 lag "PCCA")
                           (macro_after_assignments 2 PyNone w))))
    = Some (Demo.scalar 99) /\
  BaseMacroMSM.fit 2 PyNone "PCCA" w
    = Ok tt (final (BaseMacroMSM.fit 2 PyNone "PCCA" w)) /\
  macro_T (macro (final (BaseMacroMSM.fit 2 PyNone "PCCA" w)))
    = Some (np.mk_ndarray 1 [[2]; [2]]%Q).
Proof. vm_compute. repeat split. Qed.

(** ** Runs for the further properties *)

Lemma BaseModel_init_fields_witness :
  let b := Demo.base_model false in
  base_data b = Demo.data /\
  base_n_sets b = length Demo.data /\
  base_n_samples b = map np.shape0 Demo.data /\
  fold_right Nat.add 0%nat (base_n_samples b)
    = length (flat_map np.rows Demo.data) /\
  (forall a, In a Demo.data -> np.ncols a = base_n_features b) /\
  base_n_microstates b = None /\
  base_n_macrostates b = None /\
  (Forall np.wf Demo.data ->
   length (base_extent b) = (2 * base_n_features b)%nat).
Proof.
  apply (@BaseModel_init_fields Demo.data [] (Demo.base_model false)).
  reflexivity.
Defined.

(** Feature 1 of the sample [(0, 5)] lies between entries 2 and 3 of
    [extent]. *)
Lemma BaseModel_extent_bounds_samples_witness :
  let b := Demo.base_model false in
  (nth 2 (base_extent b) 0 <= 5)%Q /\ (5 <= nth 3 (base_extent b) 0)%Q.
Proof.
  apply (@BaseModel_extent_bounds_samples Demo.data [] (Demo.base_model false)
           (np.mk_ndarray 2 [[0; 5]; [2; 3]]%Q) [0; 5]%Q 1%nat).
  - reflexivity.
  - repeat constructor;
      match goal with
      | |- binary64 (?n # 1) =>
          exists n, 0%Z; split; [reflexivity | split; [lia | reflexivity]]
      end.
  - repeat constructor.
  - left. reflexivity.
  - left. reflexivity.
  - cbn. lia.
Defined.

(** A vector of three elements becomes a list with one column. *)
Lemma check_data_structure_idempotent_witness :
  _check_data_structure (ObjList [mk_narray [3; 1]%nat [1; 2; 3]%Q])
    = Val (ObjList [mk_narray [3; 1]%nat [1; 2; 3]%Q]).
Proof.
  apply (@check_data_structure_idempotent
           (ObjArray (mk_narray [3%nat] [1; 2; 3]%Q))).
  reflexivity.
Defined.

(** An array of shape (3, 2, 2) comes back bare. *)
Lemma check_data_structure_on_arrays_witness :
  let a := mk_narray [3; 2; 2]%nat [1; 2; 3; 4; 5; 6; 7; 8; 9; 10; 11; 12]%Q in
  ((length (shape a) = 1 \/ length (shape a) = 2)%nat /\
   exists item,
     ObjArray a = ObjList [item] /\
     length (shape item) = 2%nat /\
     flat item = flat a /\
     hd 0%nat (shape item) = hd 0%nat (shape a)) \/
  ((3 <= length (shape a))%nat /\
   hd 0%nat (shape a) = 3%nat /\
   ObjArray a = ObjArray a).
Proof.
  apply (@check_data_structure_on_arrays
           (mk_narray [3; 2; 2]%nat
              [1; 2; 3; 4; 5; 6; 7; 8; 9; 10; 11; 12]%Q)).
  reflexivity.
Defined.

Lemma predict_unknown_method_returns_None_witness :
  let w := Demo.micro_fitted false 4 in
  let X := np.mk_ndarray 2 [[0; 5]]%Q in
  BaseMicroMSM.predict X "Ward" [] w = Ok None w /\
  BaseMacroMSM.predict X "Ward" [] w = Ok None w.
Proof.
  apply (@predict_unknown_method_returns_None Demo.collaborators
           (np.mk_ndarray 2 [[0; 5]]%Q) "Ward" []
           (Demo.micro_fitted false 4) Demo.two_centroids).
  - reflexivity.
  - intros H. vm_compute in H. discriminate H.
  - intros H. vm_compute in H. discriminate H.
Defined.

(** [update(lag=5)] on a model that was never fitted. *)
Lemma micro_update_failure_keeps_new_lag_witness :
  let w := Demo.unfit false in
  let w' := on_micro (micro_set_lag (PyInt 5)) w in
  micro_lag (micro w') = PyInt 5 /\
  micro_T (micro w') = micro_T (micro w) /\
  micro_labels (micro w') = micro_labels (micro w) /\
  micro_centroids (micro w') = micro_centroids (micro w) /\
  micro_N (micro w') = micro_N (micro w) /\
  base w' = base w /\
  macro w' = macro w /\
  (micro_labels (micro w) = None ->
   AttributeError = AttributeError /\ w' = on_micro (micro_set_lag (PyInt 5)) w).
Proof.
  apply (@micro_update_failure_keeps_new_lag Demo.collaborators
           [("lag", PyInt 5)] (PyInt 5) (Demo.unfit false) AttributeError
           (on_micro (micro_set_lag (PyInt 5)) (Demo.unfit false))).
  - repeat constructor. intros [].
  - reflexivity.
  - reflexivity.
Defined.

(** [fit(N=4)] followed by [update(lag=2)] ends where [fit(N=4, lag=2)]
    ends. *)
Lemma micro_update_lag_is_refit_witness :
  let w := Demo.unfit false in
  let w1 := final (BaseMicroMSM.fit (Some 4%Z) None PyNone [] w) in
  let w2 := final (BaseMicroMSM.update [("lag", PyInt 2)] w1) in
  BaseMicroMSM.fit (Some 4%Z) None (PyInt 2) [] w = Ok tt w2.
Proof.
  apply (@micro_update_lag_is_refit Demo.collaborators (Some 4%Z) None []
           (PyInt 2) (Demo.unfit false)
           (final (BaseMicroMSM.fit (Some 4%Z) None PyNone []
                     (Demo.unfit false)))).
  - reflexivity.
  - vm_compute. reflexivity.
  - vm_compute. reflexivity.
Defined.

Lemma micro_fit_then_queries_witness :
  let w' := final (BaseMicroMSM.fit (Some 4%Z) None PyNone []
                     (Demo.unfit false)) in
  exists C T,
    micro_C (micro w') = Some C /\
    micro_T (micro w') = Some T /\
    BaseMicroMSM.count_matrix w' = Ok C w' /\
    BaseMicroMSM.transition_matrix w' = Ok T w' /\
    BaseMicroMSM._count_matrix (micro_lag (micro w')) w' = Ok C w' /\
    BaseMicroMSM._transition_matrix PyNone w' = Ok T w' /\
    BaseMicroMSM._transition_matrix (micro_lag (micro w')) w' = Ok T w'.
Proof.
  apply (@micro_fit_then_queries Demo.collaborators (Some 4%Z) None PyNone []
           (Demo.unfit false)).
  vm_compute. reflexivity.
Defined.

(** A second fit with seven states and an unknown method on a model fitted
    with four: the labels of the first fit stay. *)
Lemma micro_refit_unknown_method_keeps_labels_witness :
  let w := Demo.micro_fitted false 4 in
  exists w',
    BaseMicroMSM.fit (Some 7%Z) None PyNone [("method", PyStr "Ward")] w
      = Ok tt w' /\
    micro_labels (micro w') = Some [0; 0; 1; 1]%Z /\
    micro_centroids (micro w') = micro_centroids (micro w) /\
    micro_N (micro w') = Some 7%Z /\
    base_n_microstates (base w') = Some 7%Z /\
    micro_C (micro w') = Some (Demo.scalar 3) /\
    micro_T (micro w') = Some (np.mk_ndarray 1 [[2]; [3]]%Q).
Proof.
  apply (@micro_refit_unknown_method_keeps_labels Demo.collaborators 7%Z None
           [("method", PyStr "Ward")] "Ward" PyNone
           (Demo.micro_fitted false 4)).
  - reflexivity.
  - intros H. vm_compute in H. discriminate H.
  - intros H. vm_compute in H. discriminate H.
  - intros H. vm_compute in H. discriminate H.
  - reflexivity.
  - reflexivity.
  - reflexivity.
Defined.

(** [fit(N=4, method=3)] *)
Lemma micro_fit_method_not_a_string_witness :
  let w := Demo.unfit false in
  BaseMicroMSM.fit (Some 4%Z) None PyNone [("method", PyInt 3)] w
    = Raise AttributeError (micro_after_N 4 w).
Proof.
  apply (proj1 (@micro_fit_method_not_a_string Demo.collaborators
                  [("method", PyInt 3)] (PyInt 3) PyNone (Demo.unfit false)
                  eq_refl
                  (or_intror (or_intror (or_introl
                     (ex_intro _ 3%Z eq_refl)))))).
Defined.

Lemma micro_fit_default_methods_witness :
  let w := Demo.unfit false in
  BaseMicroMSM.fit_label (Some 4%Z) None [("tol", PyFloat (1 # 100))] w
    = bind (cluster_KMeans [("tol", PyFloat (1 # 100))])
        (fun cl => modify (micro_after_clustering cl)) (micro_after_N 4 w).
Proof.
  apply (proj1 (@micro_fit_default_methods Demo.collaborators
                  [("tol", PyFloat (1 # 100))] (Demo.unfit false) eq_refl)).
Defined.

(** The micro model fitted at lag 3 on a [BaseModel] of lag 1. *)
Lemma macro_lag_follows_micro_fit_witness :
  let w' := final (BaseMicroMSM.fit (Some 4%Z) None (PyInt 3) []
                     (Demo.unfit false)) in
  base_lag (base w') = PyInt 1 /\
  macro_lag (BaseMacroMSM.__init__ (base w') (micro w')) = PyInt 3.
Proof.
  split; [reflexivity |].
  apply (@macro_lag_follows_micro_fit Demo.collaborators (Some 4%Z) None
           (PyInt 3) [] (Demo.unfit false)).
  - vm_compute. reflexivity.
  - reflexivity.
Defined.

(** No macrostates at all are accepted. *)
Lemma macro_fit_checks_pass_silently_witness :
  let w := Demo.micro_fitted false 10 in
  BaseMacroMSM.fit 0 PyNone "GMM" w =
    bind (BaseMacroMSM.fit_coarse_grain 0 (macro_lag_in_force PyNone w) "GMM")
      (fun _ => BaseMacroMSM.fit_estimate (macro_lag_in_force PyNone w) "GMM")
      (macro_after_assignments 0 PyNone w).
Proof.
  apply (@macro_fit_checks_pass_silently Demo.collaborators 0%Z PyNone "GMM"
           (Demo.micro_fitted false 10) 10%Z).
  - reflexivity.
  - lia.
  - lia.
  - right. reflexivity.
Defined.

Lemma macro_fit_large_sparse_copies_flag_witness :
  let w := Demo.micro_fitted true 5000 in
  let w1 := on_macro (macro_set_is_sparse (base_is_sparse (base w)))
              (macro_after_assignments 4000 PyNone w) in
  macro_is_sparse (macro w1) = PyBool true /\
  warnings w1 = [].
Proof.
  apply (@macro_fit_large_sparse_copies_flag Demo.collaborators 4000%Z PyNone
           "GMM" (Demo.micro_fitted true 5000) 5000%Z).
  - reflexivity.
  - lia.
  - lia.
  - reflexivity.
Defined.

Lemma macro_fit_then_queries_witness :
  let w' := final (BaseMacroMSM.fit 2 PyNone "GMM"
                     (Demo.micro_fitted false 4)) in
  exists C T,
    macro_C (macro w') = Some C /\
    macro_T (macro w') = Some T /\
    BaseMacroMSM.count_matrix w' = Ok C w' /\
    BaseMacroMSM.transition_matrix w' = Ok T w' /\
    BaseMacroMSM._transition_matrix PyNone w' = Ok T w'.
Proof.
  apply (@macro_fit_then_queries Demo.collaborators 2%Z PyNone "GMM"
           (Demo.micro_fitted false 4)).
  vm_compute. reflexivity.
Defined.

(** An estimator that fails: the collaborators of the demo with
    [rev_T_estimator] replaced. *)
Lemma micro_fit_estimator_failure_keeps_counts_witness :
  let failing : Collaborators := {|
    classifier_KNeighborsClassifier := @classifier_KNeighborsClassifier Demo.collaborators;
    classifier_GaussianNB := @classifier_GaussianNB Demo.collaborators;
    cluster_KMeans := @cluster_KMeans Demo.collaborators;
    cluster_MiniBatchKMeans := @cluster_MiniBatchKMeans Demo.collaborators;
    cluster_KMedoids := @cluster_KMedoids Demo.collaborators;
    analysis_count_matrix := Demo.count;
    sym_T_estimator := Demo.tagged 1;
    rev_T_estimator := fun _ => Exc ValueError;
    nonrev_T_matrix := Demo.tagged 3;
    coarse_grain_GMM := @coarse_grain_GMM Demo.collaborators;
    coarse_grain_HC := @coarse_grain_HC Demo.collaborators;
    coarse_grain_HMM := @coarse_grain_HMM Demo.collaborators;
    coarse_grain_HPCA := @coarse_grain_HPCA Demo.collaborators;
    coarse_grain_PCCA := @coarse_grain_PCCA Demo.collaborators;
    spectral_stationary_distribution := fun _ _ => Val [1%Q];
    spectral_eigen_values := fun _ _ _ _ _ => Val [1%Q];
    timescales_mfpt := fun _ _ _ _ => Val 0%Q;
    score_Silhouette_Score := fun _ _ _ => Val 0%Q
  |} in
  let w := Demo.unfit false in
  let wl := micro_after_clustering (Demo.two_centroids, [0; 0; 1; 1]%Z)
              (micro_after_N 4 w) in
  let w' := on_micro (micro_set_C (Demo.scalar 3)) (micro_with_lag PyNone wl) in
  @BaseMicroMSM.fit failing (Some 4%Z) None PyNone [] w = Raise ValueError w' /\
  micro_C (micro w') = Some (Demo.scalar 3) /\
  micro_T (micro w') = micro_T (micro wl) /\
  micro_labels (micro w') = Some [0; 0; 1; 1]%Z.
Proof.
  cbv zeta.
  refine (@micro_fit_estimator_failure_keeps_counts _ (Some 4%Z) None PyNone
            [] (Demo.unfit false) _ [0; 0; 1; 1]%Z (Demo.scalar 3) ValueError
            _ _ _ _); reflexivity.
Defined.

Lemma micro_score_labels_by_KNeighbors_witness :
  let w := Demo.micro_fitted false 4 in
  let X := np.mk_ndarray 2 [[0; 5]]%Q in
  BaseMicroMSM.score X None [("metric", PyStr "euclidean")] w =
    bind (classifier_KNeighborsClassifier SelfMicro (Some X) None [])
      (fun l => lift (score_Silhouette_Score X (Some l)
                        [("metric", PyStr "euclidean")])) w.
Proof.
  apply (@micro_score_labels_by_KNeighbors Demo.collaborators
           (np.mk_ndarray 2 [[0; 5]]%Q) [("metric", PyStr "euclidean")]
           (Demo.micro_fitted false 4) Demo.two_centroids).
  reflexivity.
Defined.

Lemma micro_fit_centroid_branch_witness :
  let c := np.mk_ndarray 2 [[9; 9]; [8; 8]; [7; 7]]%Q in
  let kw := [("method", PyStr "GaussianNB")] in
  let w := Demo.unfit false in
  BaseMicroMSM.fit_label None (Some c) kw w
    = bind (classifier_GaussianNB SelfMicro None None kw)
        (fun l => modify (on_micro (micro_set_labels l)))
        (micro_after_centroids c w).
Proof.
  apply (proj2 (proj2 (proj2 (proj2
           (@micro_fit_centroid_branch Demo.collaborators
              (np.mk_ndarray 2 [[9; 9]; [8; 8]; [7; 7]]%Q)
              [("method", PyStr "GaussianNB")] (Demo.unfit false)))))).
  reflexivity.
Defined.

End Runs.
